(** * DDPG agent (DDPG/agent.py): a shallow embedding and its properties

  The agent keeps Python floats (IEEE-754 binary64) for its scalars
  (gamma, tau, total_reward, best_score) and numpy [float32] arrays for
  the batches it builds in [learn] and for the network weights.  Both
  are modelled with the IEEE-754 specification of the standard library
  ([spec_float]), so that NaN, infinities, signed zeros and rounding are
  the ones of the program. *)

From Stdlib Require Import ZArith List Bool Lia.
From Stdlib Require Import Floats.SpecFloat.
From stdpp Require Import gmap list.

Import ListNotations.
Local Open Scope Z_scope.
Set Warnings "-abstract-large-number".

(** ** Floating-point numbers *)

Module Float.

(** A float of either width: the format is carried by the operation. *)
Definition float := spec_float.

(** Python [float], numpy [float64]. *)
Module F64.
Definition prec : Z := 53.
Definition emax : Z := 1024.
Definition add : float -> float -> float := SFadd prec emax.
Definition sub : float -> float -> float := SFsub prec emax.
Definition mul : float -> float -> float := SFmul prec emax.
Definition div : float -> float -> float := SFdiv prec emax.
Definition ltb : float -> float -> bool := SFltb.
Definition leb : float -> float -> bool := SFleb.
Definition eqb : float -> float -> bool := SFeqb.
Definition valid : float -> bool := valid_binary prec emax.
(** Nearest binary64 to an integer times a power of two. *)
Definition of_Z_exp (m e : Z) : float := binary_normalize prec emax m e false.
Definition of_Z (n : Z) : float := of_Z_exp n 0.
(** Widening of a narrower float: exact. *)
Definition of_float (x : float) : float :=
    match x with
    | S754_finite s m e => binary_round prec emax s m e
    | _ => x
    end.
End F64.

(** numpy [float32], the dtype of the batches and of Keras weights. *)
Module F32.
Definition prec : Z := 24.
Definition emax : Z := 128.
Definition add : float -> float -> float := SFadd prec emax.
Definition sub : float -> float -> float := SFsub prec emax.
Definition mul : float -> float -> float := SFmul prec emax.
Definition eqb : float -> float -> bool := SFeqb.
Definition valid : float -> bool := valid_binary prec emax.
Definition of_Z_exp (m e : Z) : float := binary_normalize prec emax m e false.
Definition of_Z (n : Z) : float := of_Z_exp n 0.
(** [astype(np.float32)] and the conversion of a Python scalar that
      meets a float32 array: round to nearest even, overflow to inf. *)
Definition of_float (x : float) : float :=
    match x with
    | S754_finite s m e => binary_round prec emax s m e
    | _ => x
    end.
End F32.

Definition pinf : float := S754_infinity false.
Definition ninf : float := S754_infinity true.
Definition nan : float := S754_nan.

Definition is_nan (x : float) : bool :=
  match x with S754_nan => true | _ => false end.

(** Neither an infinity nor a NaN. *)
Definition is_finite (x : float) : bool :=
  match x with
  | S754_zero _ | S754_finite _ _ _ => true
  | _ => false
  end.

Definition is_zero (x : float) : bool :=
  match x with S754_zero _ => true | _ => false end.

(** The same number: identical, or two zeros (of any signs). *)
Definition same_value (x y : float) : Prop :=
  x = y \/ (is_zero x = true /\ is_zero y = true).

End Float.

Import Float.

(** ** Python exceptions *)

Inductive exn : Set :=
| AttributeError | AssertionError | ValueError | IndexError | OverflowError.

Inductive result (A : Type) : Type :=
| Ok (a : A)
| Raise (e : exn).
Arguments Ok {A} a.
Arguments Raise {A} e.

Definition result_bind {A B} (r : result A) (k : A -> result B) : result B :=
  match r with Ok a => k a | Raise e => Raise e end.

Fixpoint result_all {A} (l : list (result A)) : result (list A) :=
  match l with
  | [] => Ok []
  | r :: l' =>
    result_bind r (fun a => result_bind (result_all l') (fun t => Ok (a :: t)))
  end.

(** ** numpy arrays

  The batches of [learn] and the states and actions of [act] have rank 1
  or 2: a rank-1 array is a list of floats, an (n, k) array the list of
  its n rows, an (n, 1) column the list of its n entries.  The weights of
  the networks are arrays of any rank ([ndarray]). *)

Module np.

Definition same_length {A} (l : list (list A)) : bool :=
  match l with
  | [] => true
  | r :: l' => forallb (fun r' => Nat.eqb (length r') (length r)) l'
  end.

(** [np.vstack] of a list of rank-1 arrays: at least one array, all of
    one length. *)
Definition vstack {A} (rows : list (list A)) : result (list (list A)) :=
  match rows with
  | [] => Raise ValueError
  | _ => if same_length rows then Ok rows else Raise ValueError
  end.

(** [np.array(rows).astype(np.float32)]: the rows must be of one length
    (a ragged list is an array of objects, which [astype] rejects). *)
Definition array_float32 (rows : list (list float)) : result (list (list float)) :=
  if same_length rows then Ok (map (map F32.of_float) rows) else Raise ValueError.

Fixpoint chunks {A} (k n : nat) (l : list A) : list (list A) :=
  match n with
  | O => []
  | S n' => firstn k l :: chunks k n' (skipn k l)
  end.

(** [a.reshape(-1, k)]: the entries in row-major order, cut into rows
    of k. *)
Definition reshape_rows {A} (k : nat) (a : list (list A)) : result (list (list A)) :=
  let flat := concat a in
  if Nat.eqb k 0 then Raise ValueError
  else if Nat.eqb (Nat.modulo (length flat) k) 0
       then Ok (chunks k (Nat.div (length flat) k) flat)
       else Raise ValueError.

(** Binary operation on two rank-1 arrays (or two columns) with numpy's
    broadcasting: equal lengths, or one of them of length one. *)
Definition broadcast (f : float -> float -> float) (a b : list float)
  : result (list float) :=
  if Nat.eqb (length a) (length b) then Ok (zip_with f a b)
  else match a, b with
       | [x], _ => Ok (map (f x) b)
       | _, [y] => Ok (map (fun x => f x y) a)
       | _, _ => Raise ValueError
       end.

(** [astype(np.uint8)] of a Python bool. *)
Definition uint8_of_bool (b : bool) : Z := if b then 1 else 0.

(** uint8 subtraction wraps around. *)
Definition uint8_sub (a b : Z) : Z := (a - b) mod 256.

(** *** Arrays of any rank

    An array of shape (d1, ..., dk) is its shape and its entries in
    row-major order; the weights of a Keras model are such arrays of
    float32 numbers (a kernel of shape (3, 2), a bias of shape (2,)). *)
Record ndarray : Type := { shape : list nat; data : list float }.

(** The number of entries of an array of the given shape. *)
Definition size (sh : list nat) : nat := fold_right Nat.mul 1%nat sh.

(** The array has as many entries as its shape says. *)
Definition well_formed (a : ndarray) : Prop := length (data a) = size (shape a).

(** Broadcasting of two shapes, both read from the last axis on: two
    dimensions fit when they are equal or one of them is 1; the shorter
    shape is filled up with the dimensions of the longer one. *)
Fixpoint broadcast_dims (ra rb : list nat) : option (list nat) :=
  match ra with
  | [] => Some rb
  | x :: ra' =>
    match rb with
    | [] => Some ra
    | y :: rb' =>
      if Nat.eqb x y || Nat.eqb y 1
      then option_map (cons x) (broadcast_dims ra' rb')
      else if Nat.eqb x 1
           then option_map (cons y) (broadcast_dims ra' rb')
           else None
    end
  end.

Definition broadcast_shape (sa sb : list nat) : option (list nat) :=
  option_map (@rev nat) (broadcast_dims (rev sa) (rev sb)).

(** The position, in the entries of an array of dimensions [ra], that the
    position [i] of a broadcast result of dimensions [rr] reads (both
    lists of dimensions from the last axis on): along an axis of
    dimension 1 the one entry is repeated. *)
Fixpoint offset (ra rr : list nat) (i stride : nat) : nat :=
  match ra, rr with
  | d :: ra', r :: rr' =>
    Nat.add (Nat.mul (if Nat.eqb d 1 then 0%nat else Nat.modulo i r) stride)
            (offset ra' rr' (Nat.div i r) (Nat.mul stride d))
  | _, _ => 0%nat
  end.

(** A binary operation on two arrays, with numpy's broadcasting: entry
    by entry on arrays of one shape, and ValueError (operands could not be
    broadcast together) when the shapes do not fit. *)
Definition broadcast_nd (f : float -> float -> float) (a b : ndarray)
  : result ndarray :=
  if decide (shape a = shape b)
  then Ok {| shape := shape a; data := zip_with f (data a) (data b) |}
  else match broadcast_shape (shape a) (shape b) with
       | Some sh =>
         Ok {| shape := sh;
               data := map (fun i =>
                              f (nth (offset (rev (shape a)) (rev sh) i 1) (data a) nan)
                                (nth (offset (rev (shape b)) (rev sh) i 1) (data b) nan))
                           (seq 0 (size sh)) |}
       | None => Raise ValueError
       end.

(** [x * a] for a Python scalar [x] and a float32 array [a]: the result
    is a float32 array. *)
Definition mul_scalar (x : float) (a : ndarray) : ndarray :=
  {| shape := shape a; data := map (F32.mul (F32.of_float x)) (data a) |}.

(** *** [np.array] of a list of arrays

    What [np.array(ws)] makes of a list of n float32 arrays: one float32
    array of shape (n, ...) when the arrays have one shape, and otherwise
    a rank-1 array of n objects, the arrays themselves. *)
Inductive array_of_arrays : Type :=
| float_array (a : ndarray)
| object_array (l : list ndarray).

(** [np.array(ws)], as numpy before 1.24 builds it.  Arrays of one shape
    are stacked.  Arrays of different shapes are kept as objects when
    their first dimensions differ (a kernel of shape (3, 2) and a bias of
    shape (2,)); when they share their first dimension (a kernel of shape
    (2, 2) and a bias of shape (2,)) numpy goes one axis further, cannot
    fill the array and raises ValueError (could not broadcast input
    array).  From numpy 1.24 on every list of arrays of different shapes
    raises ValueError. *)
Definition array (ws : list ndarray) : result array_of_arrays :=
  match ws with
  | [] => Ok (float_array {| shape := [0%nat]; data := [] |})
  | w :: ws' =>
    if forallb (fun w' => bool_decide (shape w' = shape w)) ws'
    then Ok (float_array {| shape := length ws :: shape w;
                            data := concat (map data ws) |})
    else match shape w with
         | d :: _ =>
           if forallb (fun w' => bool_decide (head (shape w') = Some d)) ws'
           then Raise ValueError
           else Ok (object_array ws)
         | [] => Ok (object_array ws)
         end
  end.

(** [len(a)]: the first dimension. *)
Definition len (a : array_of_arrays) : nat :=
  match a with
  | float_array a => hd 0%nat (shape a)
  | object_array l => length l
  end.

(** The arrays that an iteration over the first axis yields. *)
Definition rows (a : array_of_arrays) : list ndarray :=
  match a with
  | float_array a =>
    match shape a with
    | n :: sh => map (fun d => {| shape := sh; data := d |})
                     (chunks (size sh) n (data a))
    | [] => []
    end
  | object_array l => l
  end.

(** [x * a] for a Python scalar [x]: on an array of objects, object by
    object. *)
Definition scalar_mul (x : float) (a : array_of_arrays) : array_of_arrays :=
  match a with
  | float_array a => float_array (mul_scalar x a)
  | object_array l => object_array (map (mul_scalar x) l)
  end.

(** [a + b].  Two float arrays are added as the arrays of one more
    dimension that they are, two arrays of as many objects object by
    object.  A float array of rank 1 (a list of scalars was stacked)
    meets an array of as many objects entry by object.  A float array of
    higher rank against an array of objects either does not broadcast or
    gives rows of objects, which are no weight arrays and which
    [set_weights] refuses with ValueError as well. *)
Definition add (a b : array_of_arrays) : result array_of_arrays :=
  match a, b with
  | float_array a, float_array b =>
    result_bind (broadcast_nd F32.add a b) (fun c => Ok (float_array c))
  | object_array la, object_array lb =>
    if Nat.eqb (length la) (length lb)
    then result_bind (result_all (zip_with (broadcast_nd F32.add) la lb))
                     (fun l => Ok (object_array l))
    else Raise ValueError
  | float_array a, object_array lb =>
    match shape a with
    | [n] =>
      if Nat.eqb n (length lb)
      then Ok (object_array
                 (zip_with (fun x t => {| shape := shape t;
                                          data := map (F32.add x) (data t) |})
                           (data a) lb))
      else Raise ValueError
    | _ => Raise ValueError
    end
  | object_array la, float_array b =>
    match shape b with
    | [n] =>
      if Nat.eqb n (length la)
      then Ok (object_array
                 (zip_with (fun t x => {| shape := shape t;
                                          data := map (fun y => F32.add y x) (data t) |})
                           la (data b)))
      else Raise ValueError
    | _ => Raise ValueError
    end
  end.

End np.

(** ** Keras models: the weights, a list of float32 arrays *)

Module keras.

Record Model : Type := { weights : list np.ndarray }.

Definition get_weights (m : Model) : list np.ndarray := weights m.

Definition shapes (ws : list np.ndarray) : list (list nat) := map np.shape ws.

(** [set_weights] takes the arrays that its argument yields and refuses
    them when they do not have the shapes of the model's own weights. *)
Definition set_weights (m : Model) (ws : np.array_of_arrays) : result Model :=
  if decide (shapes (np.rows ws) = shapes (weights m))
  then Ok {| weights := np.rows ws |}
  else Raise ValueError.

End keras.

(** ** Transitions, replay buffer, noise process *)

(** One transition, as the buffer hands it to [learn]: the fields
  [e.state], [e.action], [e.reward], [e.next_state], [e.done]. *)
Record Experience : Type := {
  state : list float;
  action : list float;
  reward : float;
  next_state : list float;
  done : bool
}.

(** Modelled from the spec: the class ReplayBuffer of DDPG/tools.py, which
  is not among the sources.  A bounded FIFO of transitions with capacity
  C and batch size B; [add] evicts the oldest entry when the buffer is
  full; [len] is the number of stored transitions.  Sampling is random
  and is left to the environment of the agent (see [random_sample]). *)
Module ReplayBuffer.
Record t : Type := {
  capacity : nat;
  batch : nat;
  items : list Experience
  }.
Definition new (C B : nat) : t := {| capacity := C; batch := B; items := [] |}.
Definition add (e : Experience) (b : t) : t :=
  {| capacity := capacity b;
     batch := batch b;
     items := (if Nat.eqb (length (items b)) (capacity b)
               then tl (items b) else items b) ++ [e] |}.
Definition len (b : t) : nat := length (items b).
End ReplayBuffer.

(** Modelled from the spec: the class OUNoise of DDPG/tools.py, which is
  not among the sources.  State [x] of dimension N, parameters mean,
  decay and variance; [reset] sets x to the mean; [sample] draws N
  standard normal numbers g, sets x := x + (theta (mu - x) + sigma g) and
  returns x. *)
Module OUNoise.
Record t : Type := {
  size : nat;
  mu : float;
  theta : float;
  sigma : float;
  x : list float
  }.
Definition with_x (v : list float) (n : t) : t :=
  {| size := size n; mu := mu n; theta := theta n; sigma := sigma n; x := v |}.
Definition reset (n : t) : t := with_x (repeat (mu n) (size n)) n.
Definition new (N : nat) (m th sg : float) : t :=
  reset {| size := N; mu := m; theta := th; sigma := sg; x := [] |}.
Definition sample (g : list float) (n : t) : t :=
  with_x (zip_with
            (fun xi gi =>
               F64.add xi (F64.add (F64.mul (theta n) (F64.sub (mu n) xi))
                                   (F64.mul (sigma n) gi)))
            (x n) g) n.
End OUNoise.

(** ** The agent *)

(** The four networks of the agent. *)
Inductive net : Set := actor | actor_target | critic | critic_target.

Global Instance net_eq_dec : EqDecision net.
Proof. solve_decision. Defined.

(** What the agent does to its collaborators, in order. *)
Inductive event : Type :=
| NoiseReset
| NoiseSample
| TaskReset
| MemoryAdd (e : Experience)
| MemorySample
| Learn (experiences : list (option Experience))
| CriticTrainOnBatch (states actions : list (list float)) (y : list float)
| ActorTrainFn (states action_gradients : list (list float)).

(** Attributes copied from the task and the constants of [__init__]. *)
Record Hyper : Type := {
  state_size : nat;
  action_size : nat;
  action_low : float;
  action_high : float;
  action_range : float;
  noise_mean : float;
  noise_decay : float;
  noise_variance : float;
  buffer_size : nat;
  batch_size : nat;
  gamma : float;
  tau : float
}.

(** The episode attributes; [last_state] and [total_reward] do not exist
  before the first [reset_episode]. *)
Record Episode : Type := {
  last_state : option (list float);
  total_reward : option float;
  num_steps : Z;
  best_score : float
}.

(** ** The collaborators of the agent

    Everything outside the agent that has state of its own (the task, the
    random number generators, the optimisers of the networks) is the
    [World]; the operations of the task, of numpy's and Python's random
    modules and of the Keras networks are the methods of this interface. *)
Class Collaborators (World : Type) : Type := {
  (** [task.reset()]. *)
  task_reset : World -> list float * World;
  (** [np.random.randn(n)]. *)
  randn : nat -> World -> list float * World;
  (** The random choice made by [ReplayBuffer.sample]. *)
  random_sample : ReplayBuffer.t -> World -> list (option Experience) * World;
  (** [predict], [predict_on_batch] of an actor network. *)
  actor_predict : keras.Model -> list (list float) -> list (list float);
  (** [predict_on_batch] of a critic network: one Q value per row. *)
  critic_predict : keras.Model -> list (list float) -> list (list float) -> list float;
  (** [train_on_batch] of the critic: one gradient step. *)
  critic_train_on_batch :
    keras.Model -> list (list float) -> list (list float) -> list float ->
    World -> keras.Model * World;
  (** [get_action_gradients] of the critic. *)
  critic_get_action_gradients :
    keras.Model -> list (list float) -> list (list float) -> list (list float);
  (** [train_fn] of the actor: one gradient step. *)
  actor_train_fn :
    keras.Model -> list (list float) -> list (list float) ->
    World -> keras.Model * World
}.

(** ** Pure parts of the methods *)

(** Python's [x / n] for a float and an int: the int is converted to a
    float first, which fails when it is too large. *)
Definition py_truediv (a : float) (n : Z) : result float :=
  let d := F64.of_Z n in
  if is_finite d then Ok (F64.div a d) else Raise OverflowError.

(** [a > b]. *)
Definition py_gt (a b : float) : bool := F64.ltb b a.

(** Python's [max(a, b)]: [b] when [b > a], otherwise [a]. *)
Definition py_max (a b : float) : float := if py_gt b a then b else a.

(** The TD targets of [learn]:
    [rewards + self.gamma * Q_targets_next * (1 - dones)], on the float32
    columns [rewards] and [Q_targets_next] and the uint8 column [dones]. *)
Definition Q_targets (gamma : float) (rewards Q_targets_next : list float)
    (dones : list Z) : result (list float) :=
  let discounted := map (F32.mul (F32.of_float gamma)) Q_targets_next in
  let mask := map (fun d => F32.of_Z (np.uint8_sub 1 d)) dones in
  result_bind (np.broadcast F32.mul discounted mask)
              (fun bootstrap => np.broadcast F32.add rewards bootstrap).

(** The five arrays that [learn] builds from its argument. *)
Record Batch : Type := {
  states : list (list float);
  actions : list (list float);
  rewards : list float;
  dones : list Z;
  next_states : list (list float)
}.

(** [[e for e in experiences if e is not None]]. *)
Fixpoint not_None (experiences : list (option Experience)) : list Experience :=
  match experiences with
  | [] => []
  | None :: es => not_None es
  | Some e :: es => e :: not_None es
  end.

Definition is_not_None (o : option Experience) : bool :=
  match o with Some _ => true | None => false end.

Definition batch_arrays (action_size : nat)
    (experiences : list (option Experience)) : result Batch :=
  let es := not_None experiences in
  result_bind (np.vstack (map state es)) (fun sts =>
  result_bind (result_bind (np.array_float32 (map action es))
                           (np.reshape_rows action_size)) (fun acts =>
  let rws := map (fun e => F32.of_float (reward e)) es in
  let dns := map (fun e => np.uint8_of_bool (done e)) es in
  result_bind (np.vstack (map next_state es)) (fun nsts =>
  Ok {| states := sts; actions := acts; rewards := rws; dones := dns;
        next_states := nsts |}))).

(** [self.tau * local_weights + (1 - self.tau) * target_weights]. *)
Definition blend (tau : float) (local_weights target_weights : np.array_of_arrays)
  : result np.array_of_arrays :=
  np.add (np.scalar_mul tau local_weights)
         (np.scalar_mul (F64.sub (F64.of_Z 1) tau) target_weights).

(** Following the spec's words, [target := tau * local + (1 - tau) * target]
    for one pair of corresponding weights, in float32 arithmetic. *)
Definition soft_weight (tau : float) (l t : float) : float :=
  F32.add (F32.mul (F32.of_float tau) l)
          (F32.mul (F32.of_float (F64.sub (F64.of_Z 1) tau)) t).

(** The same for every pair of corresponding weight arrays. *)
Definition soft_weights (tau : float) (local_weights target_weights : list np.ndarray)
  : list np.ndarray :=
  zip_with (fun l t => {| np.shape := np.shape t;
                          np.data := zip_with (soft_weight tau) (np.data l) (np.data t) |})
           local_weights target_weights.

(** Two arrays of one shape with the same numbers as entries. *)
Definition same_array (a b : np.ndarray) : Prop :=
  np.shape a = np.shape b /\ Forall2 same_value (np.data a) (np.data b).

(** Every entry of every array has the property. *)
Definition all_entries (P : float -> Prop) (ws : list np.ndarray) : Prop :=
  Forall (fun w => Forall P (np.data w)) ws.

(** A local and a target model whose weights have the same shapes, each
    array with as many entries as its shape says, and such that
    [np.array] accepts the list of the local weights (and with it that of
    the target weights, which has the same shapes). *)
Definition same_structure (local_model target_model : keras.Model) : Prop :=
  keras.shapes (keras.get_weights local_model) =
  keras.shapes (keras.get_weights target_model) /\
  Forall np.well_formed (keras.get_weights local_model) /\
  Forall np.well_formed (keras.get_weights target_model) /\
  np.array (keras.get_weights local_model) <> Raise ValueError.

(** ** The agent and its methods *)

Section Agent.

Context {World : Type} `{!Collaborators World}.

Record DDPGAgent : Type := {
  hyper : Hyper;
  nets : net -> keras.Model;
  noise : OUNoise.t;
  memory : ReplayBuffer.t;
  episode : Episode;
  world : World;
  trace : list event
}.

(** *** Attribute updates *)

Definition set_nets (f : net -> keras.Model) (s : DDPGAgent) : DDPGAgent :=
  {| hyper := hyper s; nets := f; noise := noise s; memory := memory s;
     episode := episode s; world := world s; trace := trace s |}.

Definition set_noise (n : OUNoise.t) (s : DDPGAgent) : DDPGAgent :=
  {| hyper := hyper s; nets := nets s; noise := n; memory := memory s;
     episode := episode s; world := world s; trace := trace s |}.

Definition set_memory (m : ReplayBuffer.t) (s : DDPGAgent) : DDPGAgent :=
  {| hyper := hyper s; nets := nets s; noise := noise s; memory := m;
     episode := episode s; world := world s; trace := trace s |}.

Definition set_episode (e : Episode) (s : DDPGAgent) : DDPGAgent :=
  {| hyper := hyper s; nets := nets s; noise := noise s; memory := memory s;
     episode := e; world := world s; trace := trace s |}.

Definition set_world (w : World) (s : DDPGAgent) : DDPGAgent :=
  {| hyper := hyper s; nets := nets s; noise := noise s; memory := memory s;
     episode := episode s; world := w; trace := trace s |}.

Definition log (ev : event) (s : DDPGAgent) : DDPGAgent :=
  {| hyper := hyper s; nets := nets s; noise := noise s; memory := memory s;
     episode := episode s; world := world s; trace := trace s ++ [ev] |}.

Definition set_net (n : net) (m : keras.Model) (s : DDPGAgent) : DDPGAgent :=
  set_nets (fun n' => if decide (n' = n) then m else nets s n') s.

Definition set_last_state (v : list float) (e : Episode) : Episode :=
  {| last_state := Some v; total_reward := total_reward e;
     num_steps := num_steps e; best_score := best_score e |}.

Definition set_total_reward (v : float) (e : Episode) : Episode :=
  {| last_state := last_state e; total_reward := Some v;
     num_steps := num_steps e; best_score := best_score e |}.

Definition set_num_steps (v : Z) (e : Episode) : Episode :=
  {| last_state := last_state e; total_reward := total_reward e;
     num_steps := v; best_score := best_score e |}.

Definition set_best_score (v : float) (e : Episode) : Episode :=
  {| last_state := last_state e; total_reward := total_reward e;
     num_steps := num_steps e; best_score := v |}.

(** *** The monad of the methods: state, and exceptions that keep the
    attributes already written *)

Definition M (A : Type) : Type := DDPGAgent -> result A * DDPGAgent.

Definition ret {A} (a : A) : M A := fun s => (Ok a, s).

Definition raise {A} (e : exn) : M A := fun s => (Raise e, s).

Definition bind {A B} (m : M A) (k : A -> M B) : M B :=
  fun s => match m s with
           | (Ok a, s') => k a s'
           | (Raise e, s') => (Raise e, s')
           end.

Definition gets {A} (f : DDPGAgent -> A) : M A := fun s => (Ok (f s), s).

Definition modify (f : DDPGAgent -> DDPGAgent) : M unit := fun s => (Ok tt, f s).

Definition lift {A} (r : result A) : M A := fun s => (r, s).

(** Reading an attribute that may not exist yet. *)
Definition getattr {A} (f : DDPGAgent -> option A) : M A :=
  fun s => match f s with
           | Some a => (Ok a, s)
           | None => (Raise AttributeError, s)
           end.

(** A call that goes through the world. *)
Definition call {A} (f : World -> A * World) : M A :=
  fun s => let '(a, w) := f (world s) in (Ok a, set_world w s).

Local Notation "x <- m ;; k" := (bind m (fun x => k))
  (at level 100, m at next level, right associativity).
Local Notation "m ;;; k" := (bind m (fun _ => k))
  (at level 100, right associativity).

Definition soft_update (local_model target_model : net) : M unit :=
  lw <- gets (fun s => keras.get_weights (nets s local_model)) ;;
  local_weights <- lift (np.array lw) ;;
  tw <- gets (fun s => keras.get_weights (nets s target_model)) ;;
  target_weights <- lift (np.array tw) ;;
  (if Nat.eqb (np.len local_weights) (np.len target_weights)
   then ret tt else raise AssertionError) ;;;
  tau <- gets (fun s => tau (hyper s)) ;;
  new_weights <- lift (blend tau local_weights target_weights) ;;
  target <- gets (fun s => nets s target_model) ;;
  m <- lift (keras.set_weights target new_weights) ;;
  modify (set_net target_model m).

Definition get_score : M float :=
  n <- gets (fun s => num_steps (episode s)) ;;
  if Z.eqb n 0 then ret ninf
  else total <- getattr (fun s => total_reward (episode s)) ;;
       lift (py_truediv total n).

Definition reset_episode : M (list float) :=
  score <- get_score ;;
  best <- gets (fun s => best_score (episode s)) ;;
  (if py_gt score best
   then score' <- get_score ;;
        modify (fun s => set_episode (set_best_score score' (episode s)) s)
   else ret tt) ;;;
  modify (log NoiseReset) ;;;
  modify (fun s => set_noise (OUNoise.reset (noise s)) s) ;;;
  modify (log TaskReset) ;;;
  st <- call task_reset ;;
  modify (fun s => set_episode (set_last_state st (episode s)) s) ;;;
  modify (fun s => set_episode (set_total_reward (S754_zero false) (episode s)) s) ;;;
  modify (fun s => set_episode (set_num_steps 0 (episode s)) s) ;;;
  getattr (fun s => last_state (episode s)).

Definition learn (experiences : list (option Experience)) : M unit :=
  modify (log (Learn experiences)) ;;;
  asz <- gets (fun s => action_size (hyper s)) ;;
  b <- lift (batch_arrays asz experiences) ;;
  actions_next <- gets (fun s => actor_predict (nets s actor_target) (next_states b)) ;;
  Q_targets_next <-
    gets (fun s => critic_predict (nets s critic_target) (next_states b) actions_next) ;;
  gamma <- gets (fun s => gamma (hyper s)) ;;
  Q <- lift (Q_targets gamma (rewards b) Q_targets_next (dones b)) ;;
  modify (log (CriticTrainOnBatch (states b) (actions b) Q)) ;;;
  c <- gets (fun s => nets s critic) ;;
  c' <- call (critic_train_on_batch c (states b) (actions b) Q) ;;
  modify (set_net critic c') ;;;
  grads <- gets (fun s => critic_get_action_gradients (nets s critic)
                            (states b) (actions b)) ;;
  action_gradients <- lift (np.reshape_rows asz grads) ;;
  modify (log (ActorTrainFn (states b) action_gradients)) ;;;
  a <- gets (fun s => nets s actor) ;;
  a' <- call (actor_train_fn a (states b) action_gradients) ;;
  modify (set_net actor a') ;;;
  soft_update critic critic_target ;;;
  soft_update actor actor_target.

Definition step (action : list float) (reward : float)
    (next_state : list float) (done : bool) : M unit :=
  total <- getattr (fun s => total_reward (episode s)) ;;
  modify (fun s => set_episode (set_total_reward (F64.add total reward) (episode s)) s) ;;;
  n <- gets (fun s => num_steps (episode s)) ;;
  modify (fun s => set_episode (set_num_steps (n + 1) (episode s)) s) ;;;
  last <- getattr (fun s => last_state (episode s)) ;;
  let e := {| state := last; action := action; reward := reward;
              next_state := next_state; done := done |} in
  modify (log (MemoryAdd e)) ;;;
  modify (fun s => set_memory (ReplayBuffer.add e (memory s)) s) ;;;
  len <- gets (fun s => ReplayBuffer.len (memory s)) ;;
  bsz <- gets (fun s => batch_size (hyper s)) ;;
  (if Nat.ltb bsz len
   then modify (log MemorySample) ;;;
        experiences <- (fun s => call (random_sample (memory s)) s) ;;
        learn experiences
   else ret tt) ;;;
  modify (fun s => set_episode (set_last_state next_state (episode s)) s).

Definition act (states : list float) : M (list float) :=
  ssz <- gets (fun s => state_size (hyper s)) ;;
  state <- lift (np.reshape_rows ssz [states]) ;;
  predicted <- gets (fun s => actor_predict (nets s actor) state) ;;
  action <- lift (match predicted with
                  | a :: _ => Ok a
                  | [] => Raise IndexError
                  end) ;;
  modify (log NoiseSample) ;;;
  N <- gets (fun s => OUNoise.size (noise s)) ;;
  g <- call (randn N) ;;
  modify (fun s => set_noise (OUNoise.sample g (noise s)) s) ;;;
  n <- gets (fun s => OUNoise.x (noise s)) ;;
  lift (np.broadcast F64.add (map F64.of_float action) n).

(** [DDPGAgent(task)] for a task with the given sizes and bounds and
    freshly built actor and critic networks: the target networks start
    from the weights of the local ones. *)
Definition init (state_size action_size : nat) (action_low action_high : float)
    (actor0 critic0 : keras.Model) (w : World) : DDPGAgent :=
  {| hyper := {| state_size := state_size; action_size := action_size;
                 action_low := action_low; action_high := action_high;
                 action_range := F64.sub action_high action_low;
                 noise_mean := F64.of_Z 0;
                 noise_decay := F64.div (F64.of_Z 1) (F64.of_Z 10);
                 noise_variance := F64.of_Z 5;
                 buffer_size := 100000;
                 batch_size := 16;
                 gamma := F64.div (F64.of_Z 99) (F64.of_Z 100);
                 tau := F64.div (F64.of_Z 1) (F64.of_Z 10) |};
     nets := fun n => match n with
                      | actor | actor_target => actor0
                      | critic | critic_target => critic0
                      end;
     noise := OUNoise.new action_size (F64.of_Z 0)
                (F64.div (F64.of_Z 1) (F64.of_Z 10)) (F64.of_Z 5);
     memory := ReplayBuffer.new 100000 16;
     episode := {| last_state := None; total_reward := None;
                   num_steps := 0; best_score := ninf |};
     world := w;
     trace := [] |}.

(** *** Sequences of operations *)

Inductive op : Type :=
| OpAct (states : list float)
| OpStep (action : list float) (reward : float) (next_state : list float) (done : bool)
| OpLearn (experiences : list (option Experience))
| OpGetScore
| OpResetEpisode.

(** The state that a call leaves behind, whether it returns or raises. *)
Definition run_op (o : op) (s : DDPGAgent) : DDPGAgent :=
  match o with
  | OpAct st => snd (act st s)
  | OpStep a r ns d => snd (step a r ns d s)
  | OpLearn es => snd (learn es s)
  | OpGetScore => snd (get_score s)
  | OpResetEpisode => snd (reset_episode s)
  end.

Definition run_ops (ops : list op) (s : DDPGAgent) : DDPGAgent :=
  fold_left (fun s o => run_op o s) ops s.

(** [m] relates every state to the state it leaves, also when it raises. *)
Definition preserves {A} (R : relation DDPGAgent) (m : M A) : Prop :=
  forall s, R s (snd (m s)).

(** The part [f] of the state is the same in both states. *)
Definition same_on {B} (f : DDPGAgent -> B) : relation DDPGAgent :=
  fun s s' => f s' = f s.

(** The second trace continues the first. *)
Definition trace_extends : relation DDPGAgent :=
  fun s s' => exists rest, trace s' = trace s ++ rest.

End Agent.

Arguments DDPGAgent World : clear implicits.
Arguments M World A : clear implicits.

(** The arguments of one call of [step]. *)
Record StepArgs : Type := {
  arg_action : list float;
  arg_reward : float;
  arg_next_state : list float;
  arg_done : bool
}.

Definition step_op (x : StepArgs) : op :=
  OpStep (arg_action x) (arg_reward x) (arg_next_state x) (arg_done x).

(** The episode attributes fit together: [num_steps] is not negative,
    [total_reward] and [last_state] exist together, and no step has been
    counted while they do not exist. *)
Definition episode_consistent (e : Episode) : Prop :=
  0 <= num_steps e /\
  (total_reward e = None -> num_steps e = 0) /\
  (total_reward e = None <-> last_state e = None).

(** [total_reward] after the rewards of [l], added from left to right. *)
Definition add_rewards (total : float) (l : list StepArgs) : float :=
  fold_left (fun t x => F64.add t (arg_reward x)) l total.

(** ** A small task, for the examples

    States and actions of dimension one, actions between -1 and 1.  The
    actor always answers with the upper bound 1.0, the critic with 0.0,
    training changes nothing, the normal draws are all 1.0, and the
    buffer samples its first [batch] transitions. *)
Module Example.

Global Instance collaborators : Collaborators unit := {|
  task_reset := fun w => ([F64.of_Z 0], w);
  randn := fun n w => (repeat (F64.of_Z 1) n, w);
  random_sample := fun buf w =>
    (map Some (firstn (ReplayBuffer.batch buf) (ReplayBuffer.items buf)), w);
  actor_predict := fun _ batch => map (fun _ => [F32.of_Z 1]) batch;
  critic_predict := fun _ batch _ => map (fun _ => F32.of_Z 0) batch;
  critic_train_on_batch := fun m _ _ _ w => (m, w);
  critic_get_action_gradients := fun _ _ acts => map (map (fun _ => F32.of_Z 0)) acts;
  actor_train_fn := fun m _ _ w => (m, w)
|}.

(** The rank-1 array of the given entries. *)
Definition array1 (xs : list float) : np.ndarray :=
  {| np.shape := [length xs]; np.data := xs |}.

(** The rank-1 array of the given numbers. *)
Definition vector (w : list Z) : np.ndarray := array1 (map F32.of_Z w).

(** The rank-2 array of the given rows. *)
Definition matrix (rows : list (list Z)) : np.ndarray :=
  {| np.shape := [length rows; length (hd [] rows)];
     np.data := map F32.of_Z (concat rows) |}.

(** A model with the given rank-1 weights. *)
Definition model (ws : list (list Z)) : keras.Model :=
  {| keras.weights := map vector ws |}.

(** One dense layer: a kernel and a bias. *)
Definition dense (kernel : list (list Z)) (bias : list Z) : keras.Model :=
  {| keras.weights := [matrix kernel; vector bias] |}.

(** Dense layers without bias: their kernels. *)
Definition kernels (ks : list (list (list Z))) : keras.Model :=
  {| keras.weights := map matrix ks |}.

(** The agent as [__init__] leaves it. *)
Definition fresh : DDPGAgent unit :=
  init 1 1 (F64.of_Z (-1)) (F64.of_Z 1) (model [[1; 2]; [3]]) (model [[4]]) tt.

(** The agent at the start of its first episode. *)
Definition started : DDPGAgent unit := snd (reset_episode fresh).

(** The agent after ten steps of reward 3.0. *)
Definition ten_steps : DDPGAgent unit :=
  run_ops (repeat (OpStep [F64.of_Z 1] (F64.of_Z 3) [F64.of_Z 0] false) 10) started.

(** The agent after sixteen such steps: the buffer holds [batch_size]
    transitions. *)
Definition sixteen_steps : DDPGAgent unit :=
  run_ops (repeat (OpStep [F64.of_Z 1] (F64.of_Z 3) [F64.of_Z 0] false) 16) started.

(** The fresh agent with another tau and other actor networks. *)
Definition with_actors (tau' : float) (local_model target_model : keras.Model)
  : DDPGAgent unit :=
  {| hyper := {| state_size := 1; action_size := 1;
                 action_low := F64.of_Z (-1); action_high := F64.of_Z 1;
                 action_range := F64.of_Z 2;
                 noise_mean := noise_mean (hyper fresh);
                 noise_decay := noise_decay (hyper fresh);
                 noise_variance := noise_variance (hyper fresh);
                 buffer_size := buffer_size (hyper fresh);
                 batch_size := batch_size (hyper fresh);
                 gamma := gamma (hyper fresh);
                 tau := tau' |};
     nets := fun n => match n with
                      | actor => local_model
                      | actor_target => target_model
                      | _ => nets fresh n
                      end;
     noise := noise fresh;
     memory := memory fresh;
     episode := episode fresh;
     world := tt;
     trace := [] |}.

(** Two transitions, the second one terminal, around an empty slot. *)
Definition experiences : list (option Experience) :=
  [ Some {| state := [F64.of_Z 0]; action := [F64.of_Z 1]; reward := F64.of_Z 2;
            next_state := [F64.of_Z 1]; done := false |};
    None;
    Some {| state := [F64.of_Z 1]; action := [F64.of_Z (-1)]; reward := F64.of_Z 10;
            next_state := [F64.of_Z 0]; done := true |} ].

(** Sixteen steps of the first episode, the first of them into a next
    state of two entries: the buffer holds states of different lengths. *)
Definition ragged_steps : DDPGAgent unit :=
  run_ops (OpStep [F64.of_Z 1] (F64.of_Z 3) [F64.of_Z 0; F64.of_Z 0] false ::
           repeat (OpStep [F64.of_Z 1] (F64.of_Z 3) [F64.of_Z 0] false) 15)
          started.

(** Three calls of [step], with rewards 1.0, 2.0 and 3.0. *)
Definition three_steps : list StepArgs :=
  [ {| arg_action := [F64.of_Z 1]; arg_reward := F64.of_Z 1;
       arg_next_state := [F64.of_Z 0]; arg_done := false |};
    {| arg_action := [F64.of_Z 1]; arg_reward := F64.of_Z 2;
       arg_next_state := [F64.of_Z 0]; arg_done := false |};
    {| arg_action := [F64.of_Z 1]; arg_reward := F64.of_Z 3;
       arg_next_state := [F64.of_Z 0]; arg_done := true |} ].

(** The batch that [learn] builds from them. *)
Definition batch : Batch :=
  let es := not_None experiences in
  {| states := map state es;
     actions := map (fun e => map F32.of_float (action e)) es;
     rewards := map (fun e => F32.of_float (reward e)) es;
     dones := map (fun e => np.uint8_of_bool (done e)) es;
     next_states := map next_state es |}.

(** The same task with networks that learn: the world counts the
    gradient steps; a step of the critic adds 1.0 to each of its weights,
    a step of the actor doubles each of its weights. *)
Definition map_weights (f : float -> float) (m : keras.Model) : keras.Model :=
  {| keras.weights :=
       map (fun w => {| np.shape := np.shape w; np.data := map f (np.data w) |})
           (keras.weights m) |}.

Global Instance training : Collaborators nat | 10 := {|
  task_reset := fun w => ([F64.of_Z 0], w);
  randn := fun n w => (repeat (F64.of_Z 1) n, w);
  random_sample := fun buf w =>
    (map Some (firstn (ReplayBuffer.batch buf) (ReplayBuffer.items buf)), w);
  actor_predict := fun _ batch => map (fun _ => [F32.of_Z 1]) batch;
  critic_predict := fun _ batch _ => map (fun _ => F32.of_Z 0) batch;
  critic_train_on_batch := fun m _ _ _ w => (map_weights (F32.add (F32.of_Z 1)) m, S w);
  critic_get_action_gradients := fun _ _ acts => map (map (fun _ => F32.of_Z 0)) acts;
  actor_train_fn := fun m _ _ w => (map_weights (F32.mul (F32.of_Z 2)) m, S w)
|}.

(** An agent of this task as [__init__] leaves it: the actor has two
    kernels of shape (2, 2), the critic has one weight. *)
Definition learner : DDPGAgent nat :=
  init 1 1 (F64.of_Z (-1)) (F64.of_Z 1)
       (kernels [[[1; 2]; [3; 4]]; [[5; 6]; [7; 8]]]) (model [[4]]) 0%nat.

End Example.

(** ** Facts of IEEE-754 arithmetic used below *)

Section FloatFacts.
Variables prec emax : Z.

Lemma same_value_refl x : same_value x x.
Proof. now left. Qed.

Lemma SFmul_zero_r x s :
  is_finite x = true -> is_zero (SFmul prec emax x (S754_zero s)) = true.
Proof. destruct x; simpl; intros H; try discriminate; reflexivity. Qed.

Lemma SFmul_zero_l x s :
  is_finite x = true -> is_zero (SFmul prec emax (S754_zero s) x) = true.
Proof. destruct x; simpl; intros H; try discriminate; reflexivity. Qed.

Lemma SFmul_zero_r_nonfinite x s :
  is_finite x = false -> SFmul prec emax x (S754_zero s) = nan.
Proof. destruct x; simpl; intros H; try discriminate; reflexivity. Qed.

Lemma SFmul_zero_l_nonfinite x s :
  is_finite x = false -> SFmul prec emax (S754_zero s) x = nan.
Proof. destruct x; simpl; intros H; try discriminate; reflexivity. Qed.

Lemma SFadd_zero_r x z :
  is_zero z = true -> same_value (SFadd prec emax x z) x.
Proof.
  destruct z as [sz| | |]; try discriminate; intros _.
  destruct x as [sx|sx| |sx mx ex]; simpl.
  - destruct sx, sz; (now left) || (right; split; reflexivity).
  - now left.
  - now left.
  - now left.
Qed.

Lemma SFadd_zero_l x z :
  is_zero z = true -> same_value (SFadd prec emax z x) x.
Proof.
  destruct z as [sz| | |]; try discriminate; intros _.
  destruct x as [sx|sx| |sx mx ex]; simpl.
  - destruct sx, sz; (now left) || (right; split; reflexivity).
  - now left.
  - now left.
  - now left.
Qed.

Lemma SFadd_nan_r x : SFadd prec emax x nan = nan.
Proof. now destruct x. Qed.

Lemma SFadd_nan_l x : SFadd prec emax nan x = nan.
Proof. now destruct x. Qed.

Lemma SFltb_SFleb x y : SFltb x y = true -> SFleb x y = true.
Proof. unfold SFltb, SFleb. destruct (SFcompare x y) as [[]|]; congruence. Qed.

Lemma SFltb_not_nan_r x y : SFltb x y = true -> is_nan y = false.
Proof. destruct x, y; simpl; try reflexivity; discriminate. Qed.

Lemma SFcompare_refl x : is_nan x = false -> SFcompare x x = Some Eq.
Proof.
  destruct x as [s|s| |s m e]; simpl; try discriminate; intros _.
  - reflexivity.
  - now destruct s.
  - rewrite Z.compare_refl, Pos.compare_cont_refl. now destruct s.
Qed.

Lemma SFleb_refl x : is_nan x = false -> SFleb x x = true.
Proof. intros H. unfold SFleb. now rewrite SFcompare_refl. Qed.

End FloatFacts.

(** Multiplication by one is exact in binary32: the product of the
  mantissas is shifted back by the 23 bits that the mantissa of 1.0
  contributes, with nothing lost. *)
Lemma F32_mul_one_l x :
  F32.valid x = true -> F32.mul (S754_finite false 8388608 (-23)) x = x.
Proof.
  destruct x as [s|s| |s m e]; try reflexivity.
  unfold F32.valid, valid_binary, bounded, canonical_mantissa.
  intros H. apply andb_prop in H as [Hc He].
  apply Z.eqb_eq in Hc.
  unfold F32.mul, SFmul. cbn [xorb].
  change (8388608 * m)%positive
  with (m~0~0~0~0~0~0~0~0~0~0~0~0~0~0~0~0~0~0~0~0~0~0~0)%positive.
  unfold binary_round_aux.
  assert (Hd : Zdigits2 (Z.pos m~0~0~0~0~0~0~0~0~0~0~0~0~0~0~0~0~0~0~0~0~0~0~0)
             = Z.pos (digits2_pos m) + 23).
  { cbn [Zdigits2 digits2_pos]. lia. }
  unfold shr_fexp at 1. rewrite Hd.
  replace (Z.pos (digits2_pos m) + 23 + (-23 + e)) with (Z.pos (digits2_pos m) + e) by lia.
  rewrite Hc.
  replace (e - (-23 + e)) with 23 by lia.
  cbn [shr shr_record_of_loc].
  change (SpecFloat.iter_pos shr_1 23 _)
  with {| shr_m := Z.pos m; shr_r := false; shr_s := false |}.
  cbn [shr_m loc_of_shr_record round_nearest_even].
  replace (-23 + e + 23) with e by lia.
  unfold shr_fexp. cbn [Zdigits2]. rewrite Hc, Z.sub_diag.
  cbn [shr shr_record_of_loc shr_m].
  unfold F32.prec, F32.emax in *. rewrite He. reflexivity.
Qed.

(** ** Weight arrays of the same shapes *)

Lemma forallb_shape_eq sh (ws : list np.ndarray) :
  forallb (fun w => bool_decide (np.shape w = sh)) ws =
  forallb (fun s => bool_decide (s = sh)) (keras.shapes ws).
Proof. induction ws as [|w ws IH]; cbn; [reflexivity|]. now rewrite IH. Qed.

Lemma forallb_head_eq d (ws : list np.ndarray) :
  forallb (fun w => bool_decide (head (np.shape w) = Some d)) ws =
  forallb (fun s => bool_decide (head s = Some d)) (keras.shapes ws).
Proof. induction ws as [|w ws IH]; cbn; [reflexivity|]. now rewrite IH. Qed.

(** [np.array] raises nothing but ValueError. *)
Lemma array_raises ws e : np.array ws = Raise e -> e = ValueError.
Proof.
  unfold np.array. destruct ws as [|w ws]; [discriminate|].
  destruct (forallb _ _); [discriminate|].
  destruct (np.shape w); [discriminate|].
  destruct (forallb _ _); [|discriminate]. now intros [= <-].
Qed.

(** [len] of the array is the number of arrays in the list. *)
Lemma len_array ws a : np.array ws = Ok a -> np.len a = length ws.
Proof.
  unfold np.array. destruct ws as [|w ws]; [now intros [= <-]|].
  destruct (forallb _ _); [now intros [= <-]|].
  destruct (np.shape w); [now intros [= <-]|].
  destruct (forallb _ _); [discriminate|]. now intros [= <-].
Qed.

(** What [np.array] makes of a list depends on the shapes only: a list
    of the same shapes is stacked, kept as objects or refused alike. *)
Lemma array_same_shapes (lw tw : list np.ndarray) :
  keras.shapes lw = keras.shapes tw ->
  match np.array lw with
  | Ok (np.float_array a) =>
      np.data a = concat (map np.data lw) /\
      (exists sh, np.shape a = length lw :: sh /\
                  Forall (fun w => np.shape w = sh) lw) /\
      np.array tw = Ok (np.float_array {| np.shape := np.shape a;
                                          np.data := concat (map np.data tw) |})
  | Ok (np.object_array l) => l = lw /\ np.array tw = Ok (np.object_array tw)
  | Raise _ => True
  end.
Proof.
  intros Hsh.
  assert (Hlen : length lw = length tw).
  { apply (f_equal length) in Hsh. unfold keras.shapes in Hsh.
    now rewrite !length_map in Hsh. }
  destruct lw as [|w lw], tw as [|t tw]; try discriminate.
  - cbn. split; [reflexivity|]. split; [|reflexivity].
    exists []. split; [reflexivity | constructor].
  - injection Hsh as Hwt Hsh. unfold np.array.
    rewrite !forallb_shape_eq, <- Hwt, <- Hsh.
    destruct (forallb _ _) eqn:Hall.
    + cbn [np.data np.shape]. split; [reflexivity|]. split.
      * exists (np.shape w). split; [reflexivity|]. constructor; [reflexivity|].
        rewrite <- forallb_shape_eq in Hall.
        rewrite forallb_forall in Hall.
        apply Forall_forall. intros x Hx. apply list_elem_of_In in Hx.
        apply Hall in Hx. now apply bool_decide_eq_true in Hx.
      * now rewrite Hlen.
    + destruct (np.shape w) as [|d sh]; [now split|].
      rewrite !forallb_head_eq, <- Hsh. clear Hall.
      destruct (forallb _ _); [exact I | now split].
Qed.

(** The rows of the sum of two stacked lists of arrays of one shape. *)
Lemma rows_zip_with (h : float -> float -> float) sh (lw tw : list np.ndarray) :
  Forall (fun w => np.shape w = sh) lw ->
  keras.shapes lw = keras.shapes tw ->
  Forall np.well_formed lw -> Forall np.well_formed tw ->
  map (fun d => {| np.shape := sh; np.data := d |})
      (np.chunks (np.size sh) (length lw)
         (zip_with h (concat (map np.data lw)) (concat (map np.data tw))))
  = zip_with (fun l t => {| np.shape := np.shape t;
                            np.data := zip_with h (np.data l) (np.data t) |})
             lw tw.
Proof.
  intros Hs. revert tw.
  induction Hs as [|w lw Hw Hs IH]; intros [|t tw] Hsh Hl Ht;
    try discriminate; [reflexivity|].
  injection Hsh as Hwt Hsh.
  inversion Hl as [|? ? Hwf Hl']; subst.
  inversion Ht as [|? ? Htf Ht']; subst.
  unfold np.well_formed in Hwf, Htf. rewrite <- Hwt in Htf.
  cbn [map concat length np.chunks zip_with].
  rewrite zip_with_app by congruence.
  rewrite take_app_length', drop_app_length'
    by (rewrite length_zip_with; lia).
  cbn [map]. f_equal; [now rewrite <- Hwt | now apply IH].
Qed.

(** Arrays of the same shapes, kept as objects, are added one by one. *)
Lemma result_all_broadcast_nd x y (lw tw : list np.ndarray) :
  keras.shapes lw = keras.shapes tw ->
  result_all (zip_with (np.broadcast_nd F32.add)
                (map (np.mul_scalar x) lw) (map (np.mul_scalar y) tw))
  = Ok (zip_with (fun l t =>
                    {| np.shape := np.shape t;
                       np.data := zip_with (fun a b => F32.add (F32.mul (F32.of_float x) a)
                                                               (F32.mul (F32.of_float y) b))
                                           (np.data l) (np.data t) |})
                 lw tw).
Proof.
  revert tw. induction lw as [|w lw IH]; intros [|t tw] Hsh;
    try discriminate; [reflexivity|].
  injection Hsh as Hwt Hsh.
  cbn [map zip_with result_all]. rewrite (IH _ Hsh).
  unfold np.broadcast_nd at 1. cbn [np.mul_scalar np.shape np.data].
  rewrite decide_True by exact Hwt.
  cbn [result_bind]. rewrite zip_with_fmap_l, zip_with_fmap_r, Hwt. reflexivity.
Qed.

(** With weights of the same shapes that [np.array] accepts, numpy
    computes [soft_weights]. *)
Lemma blend_same_shapes tau (lw tw : list np.ndarray) a :
  keras.shapes lw = keras.shapes tw ->
  Forall np.well_formed lw -> Forall np.well_formed tw ->
  np.array lw = Ok a ->
  exists b new_weights,
    np.array tw = Ok b /\ np.len a = np.len b /\
    blend tau a b = Ok new_weights /\
    np.rows new_weights = soft_weights tau lw tw.
Proof.
  intros Hsh Hl Ht Ha.
  pose proof (array_same_shapes lw tw Hsh) as H. rewrite Ha in H.
  destruct a as [a|l].
  - destruct H as (Hdata & (sh & Hshape & Hall) & Hb).
    eexists. eexists. split; [exact Hb|]. split; [reflexivity|].
    unfold blend, np.scalar_mul, np.add, np.broadcast_nd.
    cbn [np.mul_scalar np.shape np.data].
    rewrite decide_True by reflexivity. cbn [result_bind].
    split; [reflexivity|].
    unfold np.rows. cbn [np.shape np.data]. rewrite Hshape, Hdata.
    rewrite zip_with_fmap_l, zip_with_fmap_r.
    now apply (rows_zip_with (soft_weight tau)).
  - destruct H as (-> & Hb).
    assert (Hlen : length lw = length tw).
    { apply (f_equal length) in Hsh. unfold keras.shapes in Hsh.
      now rewrite !length_map in Hsh. }
    eexists. eexists. split; [exact Hb|]. split; [exact Hlen|].
    unfold blend, np.scalar_mul, np.add.
    rewrite !length_map, Hlen, Nat.eqb_refl.
    rewrite (result_all_broadcast_nd _ _ _ _ Hsh). cbn [result_bind].
    split; reflexivity.
Qed.

Lemma shapes_soft_weights tau (lw tw : list np.ndarray) :
  length lw = length tw ->
  keras.shapes (soft_weights tau lw tw) = keras.shapes tw.
Proof.
  unfold keras.shapes, soft_weights. revert tw.
  induction lw as [|w lw IH]; intros [|t tw] Hlen; cbn in *;
    try discriminate; [reflexivity|].
  f_equal. apply IH. lia.
Qed.

(** ** Soft updates with tau = 0 and tau = 1 *)

Lemma Forall2_zip_with_r (P Q : float -> Prop) (f : float -> float -> float)
    (a b : list float) :
  length a = length b -> Forall P a -> Forall Q b ->
  (forall x y, P x -> Q y -> same_value (f x y) y) ->
  Forall2 same_value (zip_with f a b) b.
Proof.
  intros Hlen Ha Hb Hf. revert b Hlen Hb.
  induction Ha as [|x a Hx Ha IH]; intros [|y b] Hlen Hb; cbn in *;
    try discriminate; constructor.
  - apply Hf; [exact Hx | now inversion Hb].
  - apply IH; [lia | now inversion Hb].
Qed.

Lemma Forall2_zip_with_l (P Q : float -> Prop) (f : float -> float -> float)
    (a b : list float) :
  length a = length b -> Forall P a -> Forall Q b ->
  (forall x y, P x -> Q y -> same_value (f x y) x) ->
  Forall2 same_value (zip_with f a b) a.
Proof.
  intros Hlen Ha Hb Hf. revert b Hlen Hb.
  induction Ha as [|x a Hx Ha IH]; intros [|y b] Hlen Hb; cbn in *;
    try discriminate; constructor.
  - apply Hf; [exact Hx | now inversion Hb].
  - apply IH; [lia | now inversion Hb].
Qed.

(** tau = 0: a new weight is the old target weight. *)
Lemma soft_weight_tau_0 l t :
  is_finite l = true -> F32.valid t = true ->
  same_value (soft_weight (F64.of_Z 0) l t) t.
Proof.
  intros Hfin Hval. unfold soft_weight.
  change (F32.of_float (F64.of_Z 0)) with (S754_zero false).
  change (F32.of_float (F64.sub (F64.of_Z 1) (F64.of_Z 0)))
    with (S754_finite false 8388608 (-23)).
  rewrite (F32_mul_one_l _ Hval).
  apply SFadd_zero_l. now apply SFmul_zero_l.
Qed.

(** tau = 1: a new weight is the local weight. *)
Lemma soft_weight_tau_1 l t :
  F32.valid l = true -> is_finite t = true ->
  same_value (soft_weight (F64.of_Z 1) l t) l.
Proof.
  intros Hval Hfin. unfold soft_weight.
  change (F32.of_float (F64.of_Z 1)) with (S754_finite false 8388608 (-23)).
  change (F32.of_float (F64.sub (F64.of_Z 1) (F64.of_Z 1)))
    with (S754_zero false).
  rewrite (F32_mul_one_l _ Hval).
  apply SFadd_zero_r. now apply SFmul_zero_l.
Qed.

(** tau = 0: every new weight is the old target weight. *)
Lemma soft_weights_tau_0 (lw tw : list np.ndarray) :
  keras.shapes lw = keras.shapes tw ->
  Forall np.well_formed lw -> Forall np.well_formed tw ->
  all_entries (fun l => is_finite l = true) lw ->
  all_entries (fun t => F32.valid t = true) tw ->
  Forall2 same_array (soft_weights (F64.of_Z 0) lw tw) tw.
Proof.
  unfold keras.shapes, soft_weights, all_entries. revert tw.
  induction lw as [|w lw IH]; intros [|t tw] Hsh Hlw Htw Hl Ht;
    try discriminate; cbn [zip_with]; constructor.
  - injection Hsh as Hwt _.
    inversion Hlw; inversion Htw; inversion Hl; inversion Ht; subst.
    split; [reflexivity|]. cbn [np.data].
    eapply Forall2_zip_with_r; eauto using soft_weight_tau_0.
    unfold np.well_formed in *. congruence.
  - injection Hsh as _ Hsh.
    inversion Hlw; inversion Htw; inversion Hl; inversion Ht; subst.
    now apply IH.
Qed.

(** tau = 1: every new weight is the local weight. *)
Lemma soft_weights_tau_1 (lw tw : list np.ndarray) :
  keras.shapes lw = keras.shapes tw ->
  Forall np.well_formed lw -> Forall np.well_formed tw ->
  all_entries (fun l => F32.valid l = true) lw ->
  all_entries (fun t => is_finite t = true) tw ->
  Forall2 same_array (soft_weights (F64.of_Z 1) lw tw) lw.
Proof.
  unfold keras.shapes, soft_weights, all_entries. revert tw.
  induction lw as [|w lw IH]; intros [|t tw] Hsh Hlw Htw Hl Ht;
    try discriminate; cbn [zip_with]; constructor.
  - injection Hsh as Hwt _.
    inversion Hlw; inversion Htw; inversion Hl; inversion Ht; subst.
    split; [now symmetry|]. cbn [np.data].
    eapply Forall2_zip_with_l; eauto using soft_weight_tau_1.
    unfold np.well_formed in *. congruence.
  - injection Hsh as _ Hsh.
    inversion Hlw; inversion Htw; inversion Hl; inversion Ht; subst.
    now apply IH.
Qed.

(** ** The TD targets *)

Lemma broadcast_same_length f (a b : list float) :
  length a = length b -> np.broadcast f a b = Ok (zip_with f a b).
Proof.
  intros H. unfold np.broadcast. now rewrite H, Nat.eqb_refl.
Qed.

(** One entry of the TD targets: [r + gamma * q * (1 - d)]. *)
Lemma Q_targets_lookup gamma (rewards Qn : list float) (dones : list Z) :
  length rewards = length Qn -> length dones = length Qn ->
  exists Q,
    Q_targets gamma rewards Qn dones = Ok Q /\
    length Q = length rewards /\
    forall (i : nat) r q d,
      rewards !! i = Some r -> Qn !! i = Some q -> dones !! i = Some d ->
      Q !! i = Some (F32.add r (F32.mul (F32.mul (F32.of_float gamma) q)
                                        (F32.of_Z (np.uint8_sub 1 d)))).
Proof.
  intros Hr Hd. unfold Q_targets. cbv zeta.
  rewrite broadcast_same_length by now rewrite !length_map.
  cbn [result_bind].
  rewrite broadcast_same_length
    by (rewrite length_zip_with, !length_map; lia).
  eexists. split; [reflexivity|]. split.
  - rewrite !length_zip_with, !length_map. lia.
  - intros i r q d Hir Hiq Hid.
    rewrite !lookup_zip_with, !list_lookup_fmap, Hir, Hiq, Hid. reflexivity.
Qed.

(** A terminal transition: the bootstrap term is multiplied by zero. *)
Lemma terminal_target gamma r q :
  let v := F32.add r (F32.mul (F32.mul (F32.of_float gamma) q)
                              (F32.of_Z (np.uint8_sub 1 (np.uint8_of_bool true)))) in
  if is_finite (F32.mul (F32.of_float gamma) q)
  then same_value v r
  else v = nan.
Proof.
  cbv zeta.
  change (F32.of_Z (np.uint8_sub 1 (np.uint8_of_bool true))) with (S754_zero false).
  destruct (is_finite _) eqn:Hfin.
  - apply SFadd_zero_r. now apply SFmul_zero_r.
  - unfold F32.mul at 1. rewrite (SFmul_zero_r_nonfinite _ _ _ _ Hfin).
    apply SFadd_nan_r.
Qed.

(** ** The batch of [learn] *)

Lemma vstack_Ok {A} (rows r : list (list A)) : np.vstack rows = Ok r -> r = rows.
Proof.
  unfold np.vstack. destruct rows; [discriminate|].
  destruct (np.same_length _); [|discriminate]. now intros [= <-].
Qed.

Lemma concat_chunks {A} (k n : nat) (l : list A) :
  concat (np.chunks k n l) = firstn (k * n) l.
Proof.
  revert l. induction n as [|n IH]; intros l; cbn [np.chunks concat].
  - now rewrite Nat.mul_0_r.
  - rewrite IH. replace (k * S n)%nat with (k + k * n)%nat by lia.
    rewrite <- (firstn_skipn k l) at 3.
    destruct (Nat.le_gt_cases k (length l)) as [Hle|Hgt].
    + rewrite firstn_app, length_firstn, Nat.min_l by exact Hle.
      replace (k + k * n - k)%nat with (k * n)%nat by lia.
      rewrite firstn_firstn, Nat.min_r by lia. reflexivity.
    + rewrite (skipn_all2 l) by lia. rewrite firstn_nil, !app_nil_r.
      rewrite firstn_firstn. f_equal. lia.
Qed.

Lemma reshape_rows_Ok {A} (k : nat) (a r : list (list A)) :
  np.reshape_rows k a = Ok r -> concat r = concat a.
Proof.
  unfold np.reshape_rows. cbv zeta.
  destruct (Nat.eqb k 0) eqn:Hk; [discriminate|].
  destruct (Nat.eqb (_ `mod` _) 0) eqn:Hmod; [|discriminate].
  intros [= <-]. apply Nat.eqb_neq in Hk. apply Nat.eqb_eq in Hmod.
  rewrite concat_chunks. apply firstn_all2.
  pose proof (Nat.div_mod_eq (length (concat a)) k). lia.
Qed.

Lemma chunks_concat {A} (k : nat) (rows : list (list A)) :
  Forall (fun r => length r = k) rows ->
  np.chunks k (length rows) (concat rows) = rows.
Proof.
  induction 1 as [|r rows Hr _ IH]; [reflexivity|].
  cbn [length np.chunks concat].
  assert (Hfirst : firstn k (r ++ concat rows) = r)
    by (rewrite <- Hr; apply take_app_length).
  assert (Hskip : skipn k (r ++ concat rows) = concat rows)
    by (rewrite <- Hr; apply drop_app_length).
  now rewrite Hfirst, Hskip, IH.
Qed.

Lemma length_concat_rows {A} (k : nat) (rows : list (list A)) :
  Forall (fun r => length r = k) rows ->
  length (concat rows) = (length rows * k)%nat.
Proof.
  induction 1 as [|r rows Hr _ IH]; [reflexivity|].
  cbn. rewrite length_app, IH, Hr. reflexivity.
Qed.

Lemma reshape_rows_id {A} (k : nat) (rows : list (list A)) :
  k <> 0%nat -> Forall (fun r => length r = k) rows ->
  np.reshape_rows k rows = Ok rows.
Proof.
  intros Hk Hrows. unfold np.reshape_rows. cbv zeta.
  apply Nat.eqb_neq in Hk as Hk'. rewrite Hk'.
  rewrite (length_concat_rows _ _ Hrows), Nat.Div0.mod_mul, Nat.eqb_refl.
  rewrite Nat.div_mul by exact Hk. now rewrite chunks_concat.
Qed.

Lemma same_length_Forall {A} (k : nat) (rows : list (list A)) :
  Forall (fun r => length r = k) rows -> np.same_length rows = true.
Proof.
  intros H. destruct rows as [|r rows]; [reflexivity|]. cbn.
  inversion H as [|? ? Hr Hrows]; subst.
  apply forallb_forall. intros r' Hin. apply Nat.eqb_eq.
  rewrite Forall_forall in Hrows. now apply Hrows, list_elem_of_In.
Qed.

Lemma vstack_same_length {A} (k : nat) (rows : list (list A)) :
  rows <> [] -> Forall (fun r => length r = k) rows -> np.vstack rows = Ok rows.
Proof.
  intros Hne H. unfold np.vstack. destruct rows; [congruence|].
  now rewrite (same_length_Forall _ _ H).
Qed.

(** What the arrays of a batch hold. *)
Lemma batch_arrays_Ok action_size experiences b :
  batch_arrays action_size experiences = Ok b ->
  let es := not_None experiences in
  states b = map state es /\
  concat (actions b) = map F32.of_float (concat (map action es)) /\
  rewards b = map (fun e => F32.of_float (reward e)) es /\
  dones b = map (fun e => np.uint8_of_bool (done e)) es /\
  next_states b = map next_state es.
Proof.
  unfold batch_arrays. cbv zeta.
  destruct (np.vstack (map state _)) as [sts|] eqn:Hst; [|discriminate].
  cbn [result_bind].
  destruct (np.array_float32 _) as [arr|] eqn:Harr; [|discriminate].
  cbn [result_bind].
  destruct (np.reshape_rows _ arr) as [acts|] eqn:Hacts; [|discriminate].
  cbn [result_bind].
  destruct (np.vstack (map next_state _)) as [nsts|] eqn:Hnst; [|discriminate].
  cbn [result_bind]. intros [= <-]. cbn.
  apply vstack_Ok in Hst, Hnst. apply reshape_rows_Ok in Hacts.
  unfold np.array_float32 in Harr.
  match type of Harr with
  | context [if ?c then _ else _] => destruct c; [|discriminate]
  end.
  injection Harr as <-.
  repeat split; try assumption.
  rewrite Hacts. clear. induction (map action _) as [|r rows IH]; [reflexivity|].
  cbn. now rewrite map_app, IH.
Qed.

Lemma not_None_filter experiences :
  map Some (not_None experiences) = List.filter is_not_None experiences.
Proof.
  induction experiences as [|[e|] es IH]; cbn; [reflexivity| |exact IH].
  now rewrite IH.
Qed.

(** With transitions of the sizes of the task, the batch is built. *)
Lemma batch_arrays_well_formed state_size action_size experiences :
  let es := not_None experiences in
  es <> [] -> action_size <> 0%nat ->
  Forall (fun e => length (state e) = state_size /\
                   length (action e) = action_size /\
                   length (next_state e) = state_size) es ->
  batch_arrays action_size experiences =
  Ok {| states := map state es;
        actions := map (fun e => map F32.of_float (action e)) es;
        rewards := map (fun e => F32.of_float (reward e)) es;
        dones := map (fun e => np.uint8_of_bool (done e)) es;
        next_states := map next_state es |}.
Proof.
  intros es Hne Hk Hwf. unfold batch_arrays. fold es.
  assert (Hmap : forall (f : Experience -> list float) (k : nat),
            Forall (fun e => length (f e) = k) es ->
            Forall (fun r => length r = k) (map f es)).
  { intros f k H. now apply Forall_map. }
  assert (Hst : Forall (fun r => length r = state_size) (map state es)).
  { apply Hmap. eapply Forall_impl; [exact Hwf|]. now intros e (H & _ & _). }
  assert (Hnst : Forall (fun r => length r = state_size) (map next_state es)).
  { apply Hmap. eapply Forall_impl; [exact Hwf|]. now intros e (_ & _ & H). }
  assert (Hact : Forall (fun r => length r = action_size) (map action es)).
  { apply Hmap. eapply Forall_impl; [exact Hwf|]. now intros e (_ & H & _). }
  rewrite (vstack_same_length state_size) by (try exact Hst; now destruct es).
  cbn [result_bind]. unfold np.array_float32.
  rewrite (same_length_Forall _ _ Hact). cbn [result_bind].
  rewrite (reshape_rows_id action_size).
  - cbn [result_bind].
    rewrite (vstack_same_length state_size) by (try exact Hnst; now destruct es).
    cbn [result_bind]. now rewrite map_map.
  - exact Hk.
  - rewrite map_map. apply Forall_map. eapply Forall_impl; [exact Hwf|].
    intros e (_ & H & _). now rewrite length_map.
Qed.

(** C8. The arrays of [learn] are built from the entries of
    [experiences] that are not None, in their order, and from nothing
    else: the states and next states as they are, the actions cast to
    float32, the rewards cast to float32, the dones cast to the uint8
    values 0 and 1.  For transitions that have the sizes of the task the
    arrays are built, one row per transition. *)
Theorem batch_arrays_spec (action_size : nat) (experiences : list (option Experience)) :
  let es := not_None experiences in
  map Some es = List.filter is_not_None experiences /\
  (forall b, batch_arrays action_size experiences = Ok b ->
     states b = map state es /\
     concat (actions b) = map F32.of_float (concat (map action es)) /\
     rewards b = map (fun e => F32.of_float (reward e)) es /\
     dones b = map (fun e => if done e then 1 else 0) es /\
     next_states b = map next_state es) /\
  (forall state_size,
     es <> [] -> action_size <> 0%nat ->
     Forall (fun e => length (state e) = state_size /\
                      length (action e) = action_size /\
                      length (next_state e) = state_size) es ->
     exists b, batch_arrays action_size experiences = Ok b /\
               actions b = map (fun e => map F32.of_float (action e)) es).
Proof.
  intros es. split; [apply not_None_filter|]. split.
  - intros b Hb. now apply batch_arrays_Ok in Hb.
  - intros state_size Hne Hk Hwf. eexists. split.
    + now apply (batch_arrays_well_formed state_size).
    + reflexivity.
Qed.

(** ** Frame rules of the monad *)

Section Preserves.

Context {World : Type} (R : relation (DDPGAgent World)) `{!PreOrder R}.

Lemma preserves_ret {A} (a : A) : preserves R (ret a).
Proof. intros s. reflexivity. Qed.

Lemma preserves_raise {A} e : preserves R (@raise World A e).
Proof. intros s. reflexivity. Qed.

Lemma preserves_gets {A} (f : DDPGAgent World -> A) : preserves R (gets f).
Proof. intros s. reflexivity. Qed.

Lemma preserves_lift {A} (r : result A) : preserves R (lift r).
Proof. intros s. reflexivity. Qed.

Lemma preserves_getattr {A} (f : DDPGAgent World -> option A) :
  preserves R (getattr f).
Proof. intros s. unfold getattr. destruct (f s); reflexivity. Qed.

Lemma preserves_modify f : (forall s, R s (f s)) -> preserves R (modify f).
Proof. intros H s. apply H. Qed.

Lemma preserves_call {A} (f : World -> A * World) :
  (forall s w, R s (set_world w s)) -> preserves R (call f).
Proof. intros H s. unfold call. destruct (f (world s)). apply H. Qed.

Lemma preserves_bind {A B} (m : M World A) (k : A -> M World B) :
  preserves R m -> (forall a, preserves R (k a)) -> preserves R (bind m k).
Proof.
  intros Hm Hk s. unfold bind. specialize (Hm s).
  destruct (m s) as [[a|e] s1]; simpl in *.
  - etransitivity; [exact Hm | apply Hk].
  - exact Hm.
Qed.

Lemma preserves_call_dep {A} (f : DDPGAgent World -> World -> A * World) :
  (forall s w, R s (set_world w s)) -> preserves R (fun s => call (f s) s).
Proof. intros H s. unfold call. destruct (f s (world s)). apply H. Qed.

Lemma preserves_if {A} (b : bool) (m1 m2 : M World A) :
  preserves R m1 -> preserves R m2 -> preserves R (if b then m1 else m2).
Proof. now destruct b. Qed.

End Preserves.

Lemma preserves_weaken {World A} (R R' : relation (DDPGAgent World)) (m : M World A) :
  (forall s s', R s s' -> R' s s') -> preserves R m -> preserves R' m.
Proof. intros H Hm s. apply H, Hm. Qed.

Global Instance same_on_preorder {World B} (f : DDPGAgent World -> B) :
  PreOrder (same_on f).
Proof.
  split.
  - intros s. reflexivity.
  - intros s1 s2 s3 H12 H23. unfold same_on in *. congruence.
Qed.

Global Instance trace_extends_preorder {World} :
  PreOrder (@trace_extends World).
Proof.
  split.
  - intros s. exists []. now rewrite app_nil_r.
  - intros s1 s2 s3 [r1 H1] [r2 H2]. exists (r1 ++ r2).
    now rewrite H2, H1, app_assoc.
Qed.

(** Goes through a method, statement by statement. *)
Ltac frame :=
  repeat lazymatch goal with
    | |- preserves _ (bind _ _) =>
        apply preserves_bind; [typeclasses eauto| |intros ?]
    | |- preserves _ (ret _) => apply preserves_ret; typeclasses eauto
    | |- preserves _ (raise _) => apply preserves_raise; typeclasses eauto
    | |- preserves _ (gets _) => apply preserves_gets; typeclasses eauto
    | |- preserves _ (lift _) => apply preserves_lift; typeclasses eauto
    | |- preserves _ (getattr _) => apply preserves_getattr; typeclasses eauto
    | |- preserves _ (modify _) => apply preserves_modify; intros ?
    | |- preserves _ (call _) => apply preserves_call; intros ? ?
    | |- preserves _ (fun s => call _ s) => apply preserves_call_dep; intros ? ?
    | |- preserves _ (if _ then _ else _) => apply preserves_if
    end.

Section AgentFacts.

Context {World : Type} `{!Collaborators World}.

Implicit Type s : DDPGAgent World.

(** [get_score] reads only. *)
Lemma get_score_state s : snd (get_score s) = s.
Proof.
  unfold get_score, bind, gets, getattr, ret, lift. simpl.
  destruct (num_steps (episode s) =? 0); [reflexivity|].
  destruct (total_reward (episode s)); reflexivity.
Qed.

(** C4. [get_score] returns minus infinity, and raises nothing, whenever
    [num_steps] is 0; otherwise it returns [total_reward / num_steps],
    Python's division of the float by the int.  With [total_reward] 30.0
    and [num_steps] 10 the score is 3.0. *)
Theorem get_score_spec s :
  (num_steps (episode s) = 0 -> get_score s = (Ok ninf, s)) /\
  (forall total, num_steps (episode s) <> 0 ->
     total_reward (episode s) = Some total ->
     get_score s = (py_truediv total (num_steps (episode s)), s)) /\
  (num_steps (episode s) = 10 ->
     total_reward (episode s) = Some (F64.of_Z 30) ->
     get_score s = (Ok (F64.of_Z 3), s)).
Proof.
  unfold get_score, bind, gets, getattr, ret, lift. cbn.
  repeat split.
  - intros ->. reflexivity.
  - intros total Hn Ht. apply Z.eqb_neq in Hn. rewrite Hn. cbn.
    now rewrite Ht.
  - intros Hn Ht. rewrite Hn. cbn. rewrite Ht. reflexivity.
Qed.

Lemma get_score_returns s score :
  fst (get_score s) = Ok score -> get_score s = (Ok score, s).
Proof.
  intros H. pose proof (get_score_state s) as Hs.
  destruct (get_score s) as [r s1]. simpl in *. now subst.
Qed.

(** The state after [reset_episode], when the score of the episode is
    [score] and the task starts the next one in [initial_state]. *)
Lemma reset_episode_returns s score initial_state w :
  get_score s = (Ok score, s) ->
  task_reset (world s) = (initial_state, w) ->
  let s1 := if py_gt score (best_score (episode s))
            then set_episode (set_best_score score (episode s)) s else s in
  let s2 := set_world w
              (log TaskReset (set_noise (OUNoise.reset (noise s1)) (log NoiseReset s1))) in
  reset_episode s =
  (Ok initial_state,
   set_episode
     (set_num_steps 0
        (set_total_reward (S754_zero false)
           (set_last_state initial_state (episode s2)))) s2).
Proof.
  intros Hscore Htask.
  unfold reset_episode.
  unfold bind at 1. rewrite Hscore.
  unfold bind at 1, gets at 1. cbn [fst snd].
  destruct (py_gt score (best_score (episode s))) eqn:Hgt.
  - unfold bind at 1. unfold bind at 1. rewrite Hscore.
    unfold modify, bind, call, gets, getattr; cbn. rewrite Htask. reflexivity.
  - unfold modify, bind, call, gets, getattr, ret; cbn. rewrite Htask. reflexivity.
Qed.

(** C6. [reset_episode], called when the episode that ends has a score
    ([get_score] returns it): [best_score] becomes the maximum of the
    previous [best_score] and that score, the noise process is reset,
    [last_state] is the initial state that [task.reset()] gives,
    [total_reward] and [num_steps] are 0, and that initial state is
    returned. *)
Theorem reset_episode_spec s score initial_state w :
  fst (get_score s) = Ok score ->
  task_reset (world s) = (initial_state, w) ->
  exists s',
    reset_episode s = (Ok initial_state, s') /\
    best_score (episode s') = py_max (best_score (episode s)) score /\
    noise s' = OUNoise.reset (noise s) /\
    OUNoise.x (noise s') = repeat (OUNoise.mu (noise s)) (OUNoise.size (noise s)) /\
    last_state (episode s') = Some initial_state /\
    total_reward (episode s') = Some (S754_zero false) /\
    num_steps (episode s') = 0 /\
    world s' = w /\
    trace s' = trace s ++ [NoiseReset; TaskReset].
Proof.
  intros Hscore Htask. apply get_score_returns in Hscore.
  eexists. split; [apply (reset_episode_returns _ _ _ _ Hscore Htask)|].
  unfold py_max.
  destruct (py_gt score (best_score (episode s))); cbn;
    repeat split; now rewrite <- app_assoc.
Qed.

(** *** What the methods leave alone *)

Lemma soft_update_frame {B} (f : DDPGAgent World -> B) local_model target_model :
  (forall s n m, f (set_net n m s) = f s) ->
  preserves (same_on f) (soft_update local_model target_model).
Proof.
  intros Hf. unfold soft_update. frame. apply Hf.
Qed.

Lemma learn_best_score experiences :
  preserves (same_on (fun s => best_score (episode s))) (learn experiences).
Proof.
  unfold learn. frame; try reflexivity; now apply soft_update_frame.
Qed.

Lemma act_best_score st :
  preserves (same_on (fun s => best_score (episode s))) (act st).
Proof. unfold act. frame; reflexivity. Qed.

Lemma step_best_score a r ns d :
  preserves (same_on (fun s => best_score (episode s))) (step a r ns d).
Proof.
  unfold step. frame; try reflexivity. apply learn_best_score.
Qed.

(** [reset_episode] leaves [best_score] or raises it. *)
Lemma reset_episode_best_score s :
  best_score (episode (snd (reset_episode s))) = best_score (episode s) \/
  F64.ltb (best_score (episode s)) (best_score (episode (snd (reset_episode s)))) = true.
Proof.
  pose proof (get_score_state s) as Hs.
  destruct (get_score s) as [[score|e] s1] eqn:Hscore; simpl in Hs; subst s1.
  - destruct (task_reset (world s)) as [st w] eqn:Htask.
    rewrite (reset_episode_returns _ _ _ _ Hscore Htask).
    destruct (py_gt score (best_score (episode s))) eqn:Hgt; cbn.
    + right. exact Hgt.
    + now left.
  - left. unfold reset_episode. unfold bind at 1. now rewrite Hscore.
Qed.

(** One operation: [best_score] stays a number, does not decrease, and
    changes in [reset_episode] only. *)
Lemma run_op_best_score o s :
  is_nan (best_score (episode s)) = false ->
  is_nan (best_score (episode (run_op o s))) = false /\
  F64.leb (best_score (episode s)) (best_score (episode (run_op o s))) = true /\
  (best_score (episode (run_op o s)) <> best_score (episode s) -> o = OpResetEpisode).
Proof.
  intros Hnan.
  assert (Hsame : forall s', best_score (episode s') = best_score (episode s) ->
            is_nan (best_score (episode s')) = false /\
            F64.leb (best_score (episode s)) (best_score (episode s')) = true /\
            (best_score (episode s') <> best_score (episode s) -> o = OpResetEpisode)).
  { intros s' ->. repeat split; [exact Hnan | now apply SFleb_refl | congruence]. }
  destruct o; cbn [run_op].
  - apply Hsame, act_best_score.
  - apply Hsame, step_best_score.
  - apply Hsame, learn_best_score.
  - apply Hsame. now rewrite get_score_state.
  - destruct (reset_episode_best_score s) as [H|H]; [now apply Hsame|].
    repeat split.
    + eapply SFltb_not_nan_r, H.
    + apply SFltb_SFleb, H.
Qed.

Lemma run_ops_not_nan ops s :
  is_nan (best_score (episode s)) = false ->
  is_nan (best_score (episode (run_ops ops s))) = false.
Proof.
  revert s. induction ops as [|o ops IH]; intros s H; [exact H|].
  cbn. apply IH. now apply run_op_best_score.
Qed.

(** C9. [best_score] is a running maximum: it is minus infinity in a new
    agent, and after any sequence of operations a further operation
    (act, step, learn, get_score, reset_episode) never decreases it and
    changes it only if it is reset_episode. *)
Theorem best_score_running_maximum
    state_size action_size action_low action_high actor0 critic0 (w : World)
    (ops : list op) (o : op) :
  let s0 := init state_size action_size action_low action_high actor0 critic0 w in
  let s := run_ops ops s0 in
  best_score (episode s0) = ninf /\
  F64.leb (best_score (episode s)) (best_score (episode (run_op o s))) = true /\
  (best_score (episode (run_op o s)) <> best_score (episode s) -> o = OpResetEpisode).
Proof.
  intros s0 s. split; [reflexivity|].
  apply run_op_best_score. apply run_ops_not_nan. reflexivity.
Qed.

(** *** [soft_update] *)

(** The ways in which [soft_update] ends: [np.array] refuses one of the
    two lists of weights, the assertion fails, the sum or [set_weights]
    fails, or the target model gets its new weights. *)
Lemma soft_update_unfold s local_model target_model :
  soft_update local_model target_model s =
  match np.array (keras.get_weights (nets s local_model)) with
  | Ok local_weights =>
      match np.array (keras.get_weights (nets s target_model)) with
      | Ok target_weights =>
          if Nat.eqb (np.len local_weights) (np.len target_weights)
          then match blend (tau (hyper s)) local_weights target_weights with
               | Ok new_weights =>
                   match keras.set_weights (nets s target_model) new_weights with
                   | Ok m => (Ok tt, set_net target_model m s)
                   | Raise e => (Raise e, s)
                   end
               | Raise e => (Raise e, s)
               end
          else (Raise AssertionError, s)
      | Raise e => (Raise e, s)
      end
  | Raise e => (Raise e, s)
  end.
Proof.
  unfold soft_update, bind, gets, lift, modify, ret, raise. cbn.
  destruct (np.array _); [|reflexivity].
  destruct (np.array _); [|reflexivity].
  destruct (Nat.eqb _ _); [|reflexivity].
  destruct (blend _ _ _); [|reflexivity].
  destruct (keras.set_weights _ _); reflexivity.
Qed.

(** With weights of the same shapes that [np.array] accepts, the target
    gets [soft_weights]. *)
Lemma soft_update_same_shapes s local_model target_model :
  keras.shapes (keras.get_weights (nets s local_model)) =
  keras.shapes (keras.get_weights (nets s target_model)) ->
  Forall np.well_formed (keras.get_weights (nets s local_model)) ->
  Forall np.well_formed (keras.get_weights (nets s target_model)) ->
  np.array (keras.get_weights (nets s local_model)) <> Raise ValueError ->
  soft_update local_model target_model s =
  (Ok tt,
   set_net target_model
     {| keras.weights :=
          soft_weights (tau (hyper s))
            (keras.get_weights (nets s local_model))
            (keras.get_weights (nets s target_model)) |} s).
Proof.
  intros Hsh Hl Ht Harr. rewrite soft_update_unfold.
  destruct (np.array (keras.get_weights (nets s local_model))) as [a|e] eqn:Ha.
  - destruct (blend_same_shapes (tau (hyper s)) _ _ a Hsh Hl Ht Ha)
      as (b & new_weights & -> & -> & -> & Hrows).
    rewrite Nat.eqb_refl. unfold keras.set_weights. rewrite Hrows.
    rewrite decide_True; [reflexivity|].
    apply shapes_soft_weights.
    apply (f_equal length) in Hsh. unfold keras.shapes in Hsh.
    now rewrite !length_map in Hsh.
  - rewrite (array_raises _ _ Ha) in Harr. now destruct Harr.
Qed.

Lemma nets_set_net_eq s n m : nets (set_net n m s) n = m.
Proof. cbn. now rewrite decide_True. Qed.

Lemma nets_set_net_ne s n n' m : n' <> n -> nets (set_net n m s) n' = nets s n'.
Proof. intros H. cbn. now rewrite decide_False. Qed.

(** C2 (amended). For a local and a target model with weights of the same
    shapes, [soft_update] first hands both lists of weights to [np.array].
    When [np.array] refuses the list (arrays of different shapes with the
    same first dimension), [soft_update] raises ValueError and the target
    keeps its weights.  When [np.array] accepts it, [soft_update] gives
    the target the weights [tau * local + (1 - tau) * target], computed in
    float32; with tau = 0 and finite local weights every target weight
    keeps its value; with tau = 1 and finite old target weights every
    target weight takes the value of the local weight (the sign of a zero
    apart). *)
Theorem soft_update_spec s local_model target_model :
  let lw := keras.get_weights (nets s local_model) in
  let tw := keras.get_weights (nets s target_model) in
  let s' := snd (soft_update local_model target_model s) in
  keras.shapes lw = keras.shapes tw ->
  Forall np.well_formed lw ->
  Forall np.well_formed tw ->
  all_entries (fun x => F32.valid x = true) lw ->
  all_entries (fun x => F32.valid x = true) tw ->
  (np.array lw = Raise ValueError ->
   soft_update local_model target_model s = (Raise ValueError, s)) /\
  (np.array lw <> Raise ValueError ->
   fst (soft_update local_model target_model s) = Ok tt /\
   keras.get_weights (nets s' target_model) = soft_weights (tau (hyper s)) lw tw /\
   (tau (hyper s) = F64.of_Z 0 ->
    all_entries (fun l => is_finite l = true) lw ->
    Forall2 same_array (keras.get_weights (nets s' target_model)) tw) /\
   (tau (hyper s) = F64.of_Z 1 ->
    all_entries (fun t => is_finite t = true) tw ->
    Forall2 same_array (keras.get_weights (nets s' target_model)) lw)).
Proof.
  intros lw tw s' Hsh Hlw Htw Hlv Htv. subst s'. split.
  - intros Harr. rewrite soft_update_unfold. fold lw. now rewrite Harr.
  - intros Harr.
    rewrite (soft_update_same_shapes _ _ _ Hsh Hlw Htw Harr). cbn [fst snd].
    rewrite nets_set_net_eq. cbn [keras.get_weights keras.weights].
    fold lw tw.
    repeat split.
    + intros -> Hfin. now apply soft_weights_tau_0.
    + intros -> Hfin. now apply soft_weights_tau_1.
Qed.

(** The sum of two arrays raises nothing but ValueError. *)
Lemma add_raises a b e : np.add a b = Raise e -> e = ValueError.
Proof.
  assert (Hnd : forall x y e', np.broadcast_nd F32.add x y = Raise e' -> e' = ValueError).
  { intros x y e'. unfold np.broadcast_nd.
    destruct (decide _); [discriminate|].
    destruct (np.broadcast_shape _ _); [discriminate|]. now intros [= <-]. }
  unfold np.add. destruct a as [a|la], b as [b|lb].
  - destruct (np.broadcast_nd F32.add a b) eqn:Hab; [discriminate|].
    cbn. intros [= <-]. now apply Hnd in Hab.
  - destruct (np.shape a) as [|n [|? ?]]; try (now intros [= <-]).
    destruct (Nat.eqb _ _); [discriminate | now intros [= <-]].
  - destruct (np.shape b) as [|n [|? ?]]; try (now intros [= <-]).
    destruct (Nat.eqb _ _); [discriminate | now intros [= <-]].
  - destruct (Nat.eqb _ _); [|now intros [= <-]].
    destruct (result_all _) as [l|e'] eqn:Hall; [discriminate|].
    cbn. intros [= <-]. clear -Hall Hnd.
    revert lb e' Hall. induction la as [|x la IH]; intros [|y lb] e' Hall;
      try discriminate.
    cbn in Hall.
    destruct (np.broadcast_nd F32.add x y) eqn:Hxy; cbn in Hall.
    + destruct (result_all _) eqn:Hr; [discriminate|].
      injection Hall as <-. eapply IH, Hr.
    + injection Hall as <-. now apply Hnd in Hxy.
Qed.

(** C7 (amended). [soft_update] hands both lists of weights to [np.array]
    before it asserts anything: when [np.array] refuses one of them it
    raises ValueError, whatever the numbers of the arrays.  Otherwise it
    asserts that the local and the target model have the same number of
    weight arrays, and nothing about their shapes: with different numbers
    it raises AssertionError at once; with equal numbers it never raises
    AssertionError.  In each of these failures nothing is written. *)
Theorem soft_update_assertion s local_model target_model :
  let lw := keras.get_weights (nets s local_model) in
  let tw := keras.get_weights (nets s target_model) in
  (np.array lw = Raise ValueError \/ np.array tw = Raise ValueError ->
   soft_update local_model target_model s = (Raise ValueError, s)) /\
  (np.array lw <> Raise ValueError -> np.array tw <> Raise ValueError ->
   length lw <> length tw ->
   soft_update local_model target_model s = (Raise AssertionError, s)) /\
  (length lw = length tw ->
   fst (soft_update local_model target_model s) <> Raise AssertionError).
Proof.
  intros lw tw. rewrite soft_update_unfold. fold lw tw.
  destruct (np.array lw) as [a|e] eqn:Ha.
  2: { rewrite (array_raises _ _ Ha). repeat split; try discriminate.
       intros H. now destruct H. }
  destruct (np.array tw) as [b|e] eqn:Hb.
  2: { rewrite (array_raises _ _ Hb). repeat split; try discriminate.
       intros _ H. now destruct H. }
  rewrite (len_array _ _ Ha), (len_array _ _ Hb).
  split; [intros [H|H]; discriminate|]. split.
  - intros _ _ H. apply Nat.eqb_neq in H. now rewrite H.
  - intros H. rewrite H, Nat.eqb_refl.
    destruct (blend _ _ _) as [new_weights|e] eqn:Hblend.
    + unfold keras.set_weights. destruct (decide _); discriminate.
    + unfold blend in Hblend. rewrite (add_raises _ _ _ Hblend). discriminate.
Qed.

(** C10. [soft_update] writes the weights of the target model and nothing
    else: every other network, and so the local model when it is another
    one than the target, keeps its weights, and gamma, tau, the replay
    buffer, the noise process and the episode counters are unchanged. *)
Theorem soft_update_frame_spec s local_model target_model :
  let s' := snd (soft_update local_model target_model s) in
  (forall n, n <> target_model -> nets s' n = nets s n) /\
  (local_model <> target_model ->
   keras.get_weights (nets s' local_model) = keras.get_weights (nets s local_model)) /\
  hyper s' = hyper s /\
  memory s' = memory s /\
  noise s' = noise s /\
  episode s' = episode s /\
  world s' = world s /\
  trace s' = trace s.
Proof.
  intros s'. subst s'. rewrite soft_update_unfold.
  destruct (np.array _); [|now repeat split].
  destruct (np.array _); [|now repeat split].
  destruct (Nat.eqb _ _); [|now repeat split].
  destruct (blend _ _ _); [|now repeat split].
  destruct (keras.set_weights _ _); [|now repeat split].
  cbn [snd]. repeat split.
  - intros n Hn. now apply nets_set_net_ne.
  - intros Hn. now rewrite nets_set_net_ne.
Qed.

(** *** [learn] *)

Lemma soft_update_trace local_model target_model :
  preserves trace_extends (soft_update (World := World) local_model target_model).
Proof.
  apply (preserves_weaken (same_on trace)).
  - intros s s' H. exists []. rewrite app_nil_r. exact H.
  - now apply soft_update_frame.
Qed.

(** [learn] leaves the episode, the buffer and the constants alone, and
    its trace starts with the call itself. *)
Lemma learn_frame experiences s :
  let s' := snd (learn experiences s) in
  episode s' = episode s /\ memory s' = memory s /\ hyper s' = hyper s /\
  exists rest, trace s' = trace s ++ Learn experiences :: rest.
Proof.
  cbv zeta. repeat split.
  - assert (H : preserves (same_on episode) (learn experiences)); [|apply H].
    unfold learn. frame; try reflexivity; now apply soft_update_frame.
  - assert (H : preserves (same_on memory) (learn experiences)); [|apply H].
    unfold learn. frame; try reflexivity; now apply soft_update_frame.
  - assert (H : preserves (same_on hyper) (learn experiences)); [|apply H].
    unfold learn. frame; try reflexivity; now apply soft_update_frame.
  - unfold learn. unfold bind at 1, modify at 1.
    match goal with
    | |- context [snd (?m (log ?ev s))] =>
        assert (H : preserves trace_extends m)
    end.
    { frame; try apply soft_update_trace;
        first [ now exists [] | eexists; reflexivity
              | exists []; cbn; now rewrite app_nil_r ]. }
    destruct (H (log (Learn experiences) s)) as [rest Hrest].
    exists rest. rewrite Hrest. cbn. now rewrite <- app_assoc.
Qed.

(** [learn] trains the critic on the TD targets of its batch. *)
Lemma learn_trains_critic experiences s b Q :
  batch_arrays (action_size (hyper s)) experiences = Ok b ->
  Q_targets (gamma (hyper s)) (rewards b)
    (critic_predict (nets s critic_target) (next_states b)
       (actor_predict (nets s actor_target) (next_states b)))
    (dones b) = Ok Q ->
  exists rest,
    trace (snd (learn experiences s)) =
    trace s ++ [Learn experiences; CriticTrainOnBatch (states b) (actions b) Q] ++ rest.
Proof.
  intros Hb HQ. unfold learn.
  unfold bind at 1, modify at 1.
  unfold bind at 1, gets at 1. cbn [hyper log].
  unfold bind at 1, lift at 1. rewrite Hb.
  unfold bind at 1, gets at 1.
  unfold bind at 1, gets at 1.
  unfold bind at 1, gets at 1. cbn [hyper nets log].
  unfold bind at 1, lift at 1. rewrite HQ.
  unfold bind at 1, modify at 1.
  match goal with
  | |- context [snd (?m (log ?ev1 (log ?ev2 s)))] =>
      assert (H : preserves trace_extends m)
  end.
  { frame; try apply soft_update_trace;
      first [ now exists [] | eexists; reflexivity
            | exists []; cbn; now rewrite app_nil_r ]. }
  match goal with
  | |- context [snd (?m ?s1)] => destruct (H s1) as [rest Hrest]
  end.
  exists rest. rewrite Hrest. cbn. now rewrite <- !app_assoc.
Qed.

(** C1 (amended). In [learn], for a batch [b] and the predictions
    [Q_targets_next] of the target critic, one per transition, the critic
    is trained on [Q_targets = rewards + gamma * Q_targets_next * (1 - dones)],
    entry by entry in float32.  For a transition with done = 1 the target
    is the reward (the sign of a zero apart) when gamma * Q_targets_next is
    finite, and NaN when it is infinite or NaN. *)
Theorem learn_Q_targets s experiences b :
  let Q_targets_next :=
    critic_predict (nets s critic_target) (next_states b)
      (actor_predict (nets s actor_target) (next_states b)) in
  batch_arrays (action_size (hyper s)) experiences = Ok b ->
  length Q_targets_next = length (rewards b) ->
  exists Q,
    Q_targets (gamma (hyper s)) (rewards b) Q_targets_next (dones b) = Ok Q /\
    (exists rest,
       trace (snd (learn experiences s)) =
       trace s ++ [Learn experiences; CriticTrainOnBatch (states b) (actions b) Q]
               ++ rest) /\
    length Q = length (rewards b) /\
    forall (i : nat) r q d,
      rewards b !! i = Some r -> Q_targets_next !! i = Some q ->
      dones b !! i = Some d ->
      exists v,
        Q !! i = Some v /\
        v = F32.add r (F32.mul (F32.mul (F32.of_float (gamma (hyper s))) q)
                               (F32.of_Z (np.uint8_sub 1 d))) /\
        (d = 1 ->
         if is_finite (F32.mul (F32.of_float (gamma (hyper s))) q)
         then same_value v r
         else v = nan).
Proof.
  intros Qn Hb Hlen.
  assert (Hd : length (dones b) = length Qn).
  { apply batch_arrays_Ok in Hb as (_ & _ & Hr & Hd & _).
    rewrite Hlen, Hr, Hd, !length_map. reflexivity. }
  destruct (Q_targets_lookup (gamma (hyper s)) (rewards b) Qn (dones b))
    as (Q & HQ & HlenQ & Hi); [now symmetry | exact Hd |].
  exists Q. split; [exact HQ|]. split; [now apply learn_trains_critic|].
  split; [exact HlenQ|].
  intros i r q d Hir Hiq Hid. eexists. split; [eapply Hi; eassumption|].
  split; [reflexivity|].
  intros ->. apply terminal_target.
Qed.

(** *** [step] *)

(** [step] in a running episode, statement by statement. *)
Lemma step_unfold s action reward next_state done total last :
  total_reward (episode s) = Some total ->
  last_state (episode s) = Some last ->
  let e := {| state := last; action := action; reward := reward;
              next_state := next_state; done := done |} in
  let s1 :=
    set_memory (ReplayBuffer.add e (memory s))
      (log (MemoryAdd e)
         (set_episode
            (set_num_steps (num_steps (episode s) + 1)
               (set_total_reward (F64.add total reward) (episode s))) s)) in
  step action reward next_state done s =
  if Nat.ltb (batch_size (hyper s)) (ReplayBuffer.len (ReplayBuffer.add e (memory s)))
  then
    match learn (fst (random_sample (ReplayBuffer.add e (memory s)) (world s)))
                (set_world (snd (random_sample (ReplayBuffer.add e (memory s)) (world s)))
                           (log MemorySample s1)) with
    | (Ok _, s2) => (Ok tt, set_episode (set_last_state next_state (episode s2)) s2)
    | (Raise err, s2) => (Raise err, s2)
    end
  else (Ok tt, set_episode (set_last_state next_state (episode s1)) s1).
Proof.
  intros Htotal Hlast e s1.
  unfold step.
  unfold bind at 1, getattr at 1. rewrite Htotal.
  unfold bind at 1, modify at 1.
  unfold bind at 1, gets at 1.
  unfold bind at 1, modify at 1.
  unfold bind at 1, getattr at 1.
  cbn [episode set_episode last_state set_num_steps set_total_reward].
  rewrite Hlast. fold e.
  unfold bind at 1, modify at 1.
  unfold bind at 1, modify at 1.
  unfold bind at 1, gets at 1.
  unfold bind at 1, gets at 1.
  cbn [memory set_memory log hyper set_episode].
  match goal with
  | |- ?f ?st = ?rhs => change (f s1 = rhs)
  end.
  destruct (Nat.ltb _ _).
  - unfold bind at 1. unfold bind at 1, modify at 1.
    unfold bind at 1, call at 1.
    change (memory (log MemorySample s1)) with (ReplayBuffer.add e (memory s)).
    change (world (log MemorySample s1)) with (world s).
    destruct (random_sample (ReplayBuffer.add e (memory s)) (world s))
      as [experiences w].
    cbn [fst snd].
    destruct (learn experiences _) as [[[]|err] s2]; reflexivity.
  - reflexivity.
Qed.

(** C3. A call of [step] in a running episode ([total_reward] and
    [last_state] exist): [total_reward] grows by the reward and
    [num_steps] by one; the transition from [last_state] is stored in the
    replay buffer; a batch is sampled and [learn] is called with it if the
    buffer then holds more than [batch_size] transitions, and neither
    happens otherwise; and when the call returns, [last_state] is
    [next_state]. *)
Theorem step_spec s action reward next_state done total last :
  total_reward (episode s) = Some total ->
  last_state (episode s) = Some last ->
  let e := {| state := last; action := action; reward := reward;
              next_state := next_state; done := done |} in
  let s' := snd (step action reward next_state done s) in
  let enough := Nat.ltb (batch_size (hyper s))
                        (ReplayBuffer.len (ReplayBuffer.add e (memory s))) in
  total_reward (episode s') = Some (F64.add total reward) /\
  num_steps (episode s') = num_steps (episode s) + 1 /\
  memory s' = ReplayBuffer.add e (memory s) /\
  In e (ReplayBuffer.items (memory s')) /\
  (enough = true ->
   exists rest,
     trace s' =
     trace s ++ [MemoryAdd e; MemorySample;
                 Learn (fst (random_sample (ReplayBuffer.add e (memory s)) (world s)))]
             ++ rest) /\
  (enough = false ->
   trace s' = trace s ++ [MemoryAdd e] /\
   fst (step action reward next_state done s) = Ok tt) /\
  (fst (step action reward next_state done s) = Ok tt ->
   last_state (episode s') = Some next_state).
Proof.
  intros Htotal Hlast e s' enough. subst s'.
  assert (Hin : In e (ReplayBuffer.items (ReplayBuffer.add e (memory s)))).
  { cbn. apply in_or_app. right. now left. }
  rewrite (step_unfold _ _ _ _ _ _ _ Htotal Hlast). fold e. cbv zeta.
  fold enough. destruct enough.
  - match goal with
    | |- context [learn ?es ?s1] =>
        pose proof (learn_frame es s1) as (Hep & Hmem & _ & rest & Htr);
        destruct (learn es s1) as [[[]|err] s2]
    end; cbn [fst snd] in *; cbn in Hep, Hmem, Htr; cbn;
      rewrite ?Hep, ?Hmem; cbn;
      repeat split; try assumption; try discriminate;
      intros _; exists rest; rewrite Htr, <- !app_assoc; reflexivity.
  - cbn. repeat split; try assumption; discriminate.
Qed.

(** *** [act] *)

Lemma reshape_rows_one {A} (k : nat) (row : list A) :
  length row = k -> k <> 0%nat -> np.reshape_rows k [row] = Ok [row].
Proof.
  intros Hlen Hk. apply reshape_rows_id; [exact Hk|]. now constructor.
Qed.

(** [act] on one state, when the actor answers: the sum of the first
    predicted action and of the new value of the noise process. *)
Lemma act_returns s (states : list float) a rows :
  length states = state_size (hyper s) ->
  state_size (hyper s) <> 0%nat ->
  actor_predict (nets s actor) [states] = a :: rows ->
  let sampled := randn (OUNoise.size (noise s)) (world s) in
  let n := OUNoise.sample (fst sampled) (noise s) in
  act states s =
  (np.broadcast F64.add (map F64.of_float a) (OUNoise.x n),
   set_noise n (set_world (snd sampled) (log NoiseSample s))).
Proof.
  intros Hlen Hssz Hpred sampled n. unfold act.
  unfold bind at 1, gets at 1.
  unfold bind at 1, lift at 1.
  rewrite (reshape_rows_one _ _ Hlen Hssz).
  unfold bind at 1, gets at 1. rewrite Hpred.
  unfold bind at 1, lift at 1.
  unfold bind at 1, modify at 1.
  unfold bind at 1, gets at 1.
  unfold bind at 1, call at 1.
  change (world (log NoiseSample s)) with (world s).
  change (noise (log NoiseSample s)) with (noise s).
  fold sampled. destruct sampled as [g w] eqn:Hs.
  unfold bind, modify, gets, lift. reflexivity.
Qed.

End AgentFacts.

(** C5. [act] reshapes a state to a batch of one, takes the action of the
    local actor for it, draws one sample of the noise process and returns
    their sum, entry by entry, as it is: nothing clips it, and in the
    example task, whose actions lie between -1 and 1, the returned action
    is 6. *)
Theorem act_spec :
  (forall World (C : Collaborators World) (s : DDPGAgent World)
          (states a : list float) rows,
     length states = state_size (hyper s) ->
     state_size (hyper s) <> 0%nat ->
     actor_predict (nets s actor) [states] = a :: rows ->
     let n := OUNoise.sample (fst (randn (OUNoise.size (noise s)) (world s)))
                             (noise s) in
     let s' := snd (act states s) in
     np.reshape_rows (state_size (hyper s)) [states] = Ok [states] /\
     fst (act states s) = np.broadcast F64.add (map F64.of_float a) (OUNoise.x n) /\
     (length a = length (OUNoise.x n) ->
      fst (act states s) = Ok (zip_with F64.add (map F64.of_float a) (OUNoise.x n))) /\
     noise s' = n /\
     trace s' = trace s ++ [NoiseSample]) /\
  (fst (act [F64.of_Z 0] Example.started) = Ok [F64.of_Z 6] /\
   action_high (hyper Example.started) = F64.of_Z 1 /\
   F64.ltb (F64.of_Z 1) (F64.of_Z 6) = true).
Proof.
  split.
  - intros World C s states a rows Hlen Hssz Hpred n s'. subst s'.
    rewrite (act_returns _ _ _ _ Hlen Hssz Hpred). cbn [fst snd].
    fold n. repeat split.
    + now apply reshape_rows_one.
    + intros Ha. now apply broadcast_same_length; rewrite length_map.
  - repeat split; vm_compute; reflexivity.
Qed.

(** ** Examples and counterexamples *)

(** C1, as stated, fails: with gamma = 0.99, reward 10 and done = 1, an
    infinite Q_targets_next gives the target NaN, which is not the reward,
    while Q_targets_next = 100 gives the target 10: the target of a
    terminal transition depends on Q_targets_next. *)
Lemma Q_targets_terminal_counterexample :
  Q_targets (F64.div (F64.of_Z 99) (F64.of_Z 100))
    [F32.of_Z 10] [pinf] [np.uint8_of_bool true] = Ok [nan] /\
  Q_targets (F64.div (F64.of_Z 99) (F64.of_Z 100))
    [F32.of_Z 10] [F32.of_Z 100] [np.uint8_of_bool true] = Ok [F32.of_Z 10] /\
  ~ same_value nan (F32.of_Z 10) /\
  F32.eqb nan (F32.of_Z 10) = false.
Proof.
  repeat split; try (vm_compute; reflexivity).
  intros [H|[H _]]; vm_compute in H; discriminate.
Qed.

(** The batch of the example, the predictions of its critic, and the TD
    targets that [learn] trains on. *)
Lemma learn_Q_targets_witness :
  batch_arrays (action_size (hyper Example.started)) Example.experiences
    = Ok Example.batch /\
  length (critic_predict (nets Example.started critic_target)
            (next_states Example.batch)
            (actor_predict (nets Example.started actor_target)
               (next_states Example.batch)))
    = length (rewards Example.batch) /\
  exists Q,
    Q_targets (gamma (hyper Example.started)) (rewards Example.batch)
      (critic_predict (nets Example.started critic_target)
         (next_states Example.batch)
         (actor_predict (nets Example.started actor_target)
            (next_states Example.batch)))
      (dones Example.batch) = Ok Q /\
    length Q = length (rewards Example.batch).
Proof.
  assert (Hb : batch_arrays (action_size (hyper Example.started)) Example.experiences
               = Ok Example.batch) by (vm_compute; reflexivity).
  assert (Hlen : length (critic_predict (nets Example.started critic_target)
                           (next_states Example.batch)
                           (actor_predict (nets Example.started actor_target)
                              (next_states Example.batch)))
                 = length (rewards Example.batch)) by (vm_compute; reflexivity).
  split; [exact Hb|]. split; [exact Hlen|].
  destruct (learn_Q_targets Example.started Example.experiences Example.batch Hb Hlen)
    as (Q & HQ & _ & HlenQ & _).
  exists Q. split; [exact HQ | exact HlenQ].
Defined.

(** C2, as stated, fails: with tau = 1, local weight 1.0 and target weight
    infinity the target becomes NaN, not the local weight; with tau = 0,
    local weight infinity and target weight 1.0 the target becomes NaN and
    is not unchanged; and for two dense layers with a kernel of shape
    (2, 2) and a bias of shape (2,) [np.array] refuses the weights, so
    that [soft_update] raises ValueError and blends nothing, whatever
    tau. *)
Lemma soft_update_tau_counterexample :
  (let s := Example.with_actors (F64.of_Z 1) (Example.model [[1]])
                                {| keras.weights := [Example.array1 [pinf]] |} in
   fst (soft_update actor actor_target s) = Ok tt /\
   keras.get_weights (nets s actor) = [Example.array1 [F32.of_Z 1]] /\
   keras.get_weights (nets (snd (soft_update actor actor_target s)) actor_target)
     = [Example.array1 [nan]]) /\
  (let s := Example.with_actors (F64.of_Z 0)
                                {| keras.weights := [Example.array1 [pinf]] |}
                                (Example.model [[1]]) in
   fst (soft_update actor actor_target s) = Ok tt /\
   keras.get_weights (nets s actor_target) = [Example.array1 [F32.of_Z 1]] /\
   keras.get_weights (nets (snd (soft_update actor actor_target s)) actor_target)
     = [Example.array1 [nan]]) /\
  (let s := Example.with_actors (F64.of_Z 1)
                                (Example.dense [[1; 2]; [3; 4]] [5; 6])
                                (Example.dense [[0; 0]; [0; 0]] [0; 0]) in
   keras.shapes (keras.get_weights (nets s actor)) =
   keras.shapes (keras.get_weights (nets s actor_target)) /\
   keras.shapes (keras.get_weights (nets s actor)) = [[2; 2]; [2]]%nat /\
   soft_update actor actor_target s = (Raise ValueError, s)).
Proof. repeat split; vm_compute; reflexivity. Qed.

(** A soft update with tau = 1 between two models with two kernels of
    shape (2, 2) each. *)
Lemma soft_update_spec_witness :
  let s := Example.with_actors (F64.of_Z 1)
             (Example.kernels [[[1; 2]; [3; 4]]; [[5; 6]; [7; 8]]])
             (Example.kernels [[[8; 7]; [6; 5]]; [[4; 3]; [2; 1]]]) in
  keras.shapes (keras.get_weights (nets s actor)) =
  keras.shapes (keras.get_weights (nets s actor_target)) /\
  np.array (keras.get_weights (nets s actor)) <> Raise ValueError /\
  fst (soft_update actor actor_target s) = Ok tt /\
  Forall2 same_array
    (keras.get_weights (nets (snd (soft_update actor actor_target s)) actor_target))
    (keras.get_weights (nets s actor)).
Proof.
  intros s.
  assert (Hsh : keras.shapes (keras.get_weights (nets s actor)) =
                keras.shapes (keras.get_weights (nets s actor_target)))
    by reflexivity.
  assert (Harr : np.array (keras.get_weights (nets s actor)) <> Raise ValueError)
    by (vm_compute; discriminate).
  assert (Hlw : Forall np.well_formed (keras.get_weights (nets s actor)))
    by (repeat constructor).
  assert (Htw : Forall np.well_formed (keras.get_weights (nets s actor_target)))
    by (repeat constructor).
  assert (Hl : all_entries (fun x => F32.valid x = true)
                 (keras.get_weights (nets s actor)))
    by (repeat constructor).
  assert (Ht : all_entries (fun x => F32.valid x = true)
                 (keras.get_weights (nets s actor_target)))
    by (repeat constructor).
  destruct (soft_update_spec s actor actor_target Hsh Hlw Htw Hl Ht) as [_ H].
  destruct (H Harr) as (Hok & _ & _ & H1).
  split; [exact Hsh|]. split; [exact Harr|]. split; [exact Hok|].
  apply H1; [reflexivity | repeat constructor].
Defined.

(** C7, as stated, fails: a local model with one weight array of shape
    (1,) and a target with one of shape (3,) differ in shape, and
    [soft_update] raises nothing: numpy broadcasts the local weight, and
    the target is left with 1.9, 2.8 and 3.7. *)
Lemma soft_update_shapes_counterexample :
  let s := Example.with_actors (tau (hyper Example.fresh))
             (Example.model [[1]]) (Example.model [[2; 3; 4]]) in
  keras.shapes (keras.get_weights (nets s actor)) = [[1%nat]] /\
  keras.shapes (keras.get_weights (nets s actor_target)) = [[3%nat]] /\
  fst (soft_update actor actor_target s) = Ok tt /\
  keras.get_weights (nets (snd (soft_update actor actor_target s)) actor_target)
    = [Example.array1
         [S754_finite false 15938355 (-23); S754_finite false 11744050 (-22);
          S754_finite false 15518924 (-22)]].
Proof. repeat split; vm_compute; reflexivity. Qed.

(** Two weight arrays of one shape against one: the assertion fails.  A
    kernel of shape (2, 2) and a bias of shape (2,) against one array:
    ValueError comes first. *)
Lemma soft_update_assertion_witness :
  (let s := Example.with_actors (tau (hyper Example.fresh))
              (Example.model [[1]; [2]]) (Example.model [[1]]) in
   length (keras.get_weights (nets s actor)) <>
   length (keras.get_weights (nets s actor_target)) /\
   soft_update actor actor_target s = (Raise AssertionError, s)) /\
  (let s := Example.with_actors (tau (hyper Example.fresh))
              (Example.dense [[1; 2]; [3; 4]] [5; 6]) (Example.model [[1]]) in
   length (keras.get_weights (nets s actor)) <>
   length (keras.get_weights (nets s actor_target)) /\
   soft_update actor actor_target s = (Raise ValueError, s)).
Proof.
  split; intros s.
  - assert (Hl : np.array (keras.get_weights (nets s actor)) <> Raise ValueError)
      by (vm_compute; discriminate).
    assert (Ht : np.array (keras.get_weights (nets s actor_target)) <> Raise ValueError)
      by (vm_compute; discriminate).
    assert (H : length (keras.get_weights (nets s actor)) <>
                length (keras.get_weights (nets s actor_target)))
      by (vm_compute; discriminate).
    split; [exact H|].
    exact (proj1 (proj2 (soft_update_assertion s actor actor_target)) Hl Ht H).
  - assert (Hl : np.array (keras.get_weights (nets s actor)) = Raise ValueError)
      by (vm_compute; reflexivity).
    split; [vm_compute; discriminate|].
    exact (proj1 (soft_update_assertion s actor actor_target) (or_introl Hl)).
Defined.

(** The seventeenth step of the first episode of the example: the
    buffer then holds 17 > 16 transitions, and [learn] is called. *)
Lemma step_spec_witness :
  let s := Example.sixteen_steps in
  let e := {| state := [F64.of_Z 0]; action := [F64.of_Z 1]; reward := F64.of_Z 3;
              next_state := [F64.of_Z 0]; done := false |} in
  let s' := snd (step [F64.of_Z 1] (F64.of_Z 3) [F64.of_Z 0] false s) in
  total_reward (episode s) = Some (F64.of_Z 48) /\
  last_state (episode s) = Some [F64.of_Z 0] /\
  Nat.ltb (batch_size (hyper s)) (ReplayBuffer.len (ReplayBuffer.add e (memory s)))
    = true /\
  total_reward (episode s') = Some (F64.add (F64.of_Z 48) (F64.of_Z 3)) /\
  num_steps (episode s') = num_steps (episode s) + 1 /\
  (exists experiences rest,
     trace s' = trace s ++ [MemoryAdd e; MemorySample; Learn experiences] ++ rest).
Proof.
  intros s e s'.
  assert (Ht : total_reward (episode s) = Some (F64.of_Z 48))
    by (vm_compute; reflexivity).
  assert (Hl : last_state (episode s) = Some [F64.of_Z 0])
    by (vm_compute; reflexivity).
  assert (He : Nat.ltb (batch_size (hyper s))
                 (ReplayBuffer.len (ReplayBuffer.add e (memory s))) = true)
    by (vm_compute; reflexivity).
  destruct (step_spec s [F64.of_Z 1] (F64.of_Z 3) [F64.of_Z 0] false _ _ Ht Hl)
    as (H1 & H2 & _ & _ & H5 & _).
  split; [exact Ht|]. split; [exact Hl|]. split; [exact He|].
  split; [exact H1|]. split; [exact H2|].
  destruct (H5 He) as [rest Hrest]. eexists. exists rest. exact Hrest.
Defined.

(** Ten steps of reward 3.0: the score is 3.0. *)
Lemma get_score_spec_witness :
  num_steps (episode Example.ten_steps) = 10 /\
  total_reward (episode Example.ten_steps) = Some (F64.of_Z 30) /\
  get_score Example.ten_steps = (Ok (F64.of_Z 3), Example.ten_steps).
Proof.
  assert (Hn : num_steps (episode Example.ten_steps) = 10)
    by (vm_compute; reflexivity).
  assert (Ht : total_reward (episode Example.ten_steps) = Some (F64.of_Z 30))
    by (vm_compute; reflexivity).
  split; [exact Hn|]. split; [exact Ht|].
  exact (proj2 (proj2 (get_score_spec Example.ten_steps)) Hn Ht).
Defined.

(** The first action of the example. *)
Lemma act_spec_witness :
  length [F64.of_Z 0] = state_size (hyper Example.started) /\
  actor_predict (nets Example.started actor) [[F64.of_Z 0]] = [[F32.of_Z 1]] /\
  trace (snd (act [F64.of_Z 0] Example.started))
    = trace Example.started ++ [NoiseSample].
Proof.
  assert (Hlen : length [F64.of_Z 0] = state_size (hyper Example.started))
    by reflexivity.
  assert (Hssz : state_size (hyper Example.started) <> 0%nat)
    by (vm_compute; discriminate).
  assert (Hp : actor_predict (nets Example.started actor) [[F64.of_Z 0]]
               = [F32.of_Z 1] :: [])
    by reflexivity.
  split; [exact Hlen|]. split; [exact Hp|].
  exact (proj2 (proj2 (proj2 (proj2
           (proj1 act_spec unit Example.collaborators Example.started
                  [F64.of_Z 0] [F32.of_Z 1] [] Hlen Hssz Hp))))).
Defined.

(** The end of an episode of ten steps of reward 3.0: the best score,
    minus infinity so far, becomes 3.0. *)
Lemma reset_episode_spec_witness :
  fst (get_score Example.ten_steps) = Ok (F64.of_Z 3) /\
  task_reset (world Example.ten_steps) = ([F64.of_Z 0], tt) /\
  exists s',
    reset_episode Example.ten_steps = (Ok [F64.of_Z 0], s') /\
    best_score (episode s') = F64.of_Z 3 /\
    num_steps (episode s') = 0.
Proof.
  assert (Hs : fst (get_score Example.ten_steps) = Ok (F64.of_Z 3))
    by (vm_compute; reflexivity).
  assert (Ht : task_reset (world Example.ten_steps) = ([F64.of_Z 0], tt))
    by reflexivity.
  split; [exact Hs|]. split; [exact Ht|].
  destruct (reset_episode_spec Example.ten_steps _ _ _ Hs Ht)
    as (s' & Hr & Hb & _ & _ & _ & _ & Hn & _).
  exists s'. split; [exact Hr|]. split; [|exact Hn].
  rewrite Hb. vm_compute. reflexivity.
Defined.

(** The batch of the example, with its empty slot. *)
Lemma batch_arrays_spec_witness :
  batch_arrays 1 Example.experiences = Ok Example.batch /\
  dones Example.batch = [0; 1] /\
  length (states Example.batch) = 2%nat.
Proof.
  assert (Hb : batch_arrays 1 Example.experiences = Ok Example.batch)
    by (vm_compute; reflexivity).
  split; [exact Hb|].
  destruct (proj1 (proj2 (batch_arrays_spec 1 Example.experiences)) _ Hb)
    as (Hs & _ & _ & Hd & _).
  split.
  - rewrite Hd. reflexivity.
  - rewrite Hs. reflexivity.
Defined.

(** An episode of ten steps of reward 3.0, then [reset_episode]: the best
    score rises from minus infinity to 3.0. *)
Lemma best_score_running_maximum_witness :
  let ops := OpResetEpisode ::
             repeat (OpStep [F64.of_Z 1] (F64.of_Z 3) [F64.of_Z 0] false) 10 in
  let s := run_ops ops
             (init 1 1 (F64.of_Z (-1)) (F64.of_Z 1)
                (Example.model [[1; 2]; [3]]) (Example.model [[4]]) tt) in
  best_score (episode s) = ninf /\
  best_score (episode (run_op OpResetEpisode s)) = F64.of_Z 3 /\
  F64.leb (best_score (episode s))
          (best_score (episode (run_op OpResetEpisode s))) = true.
Proof.
  intros ops s.
  split; [vm_compute; reflexivity|]. split; [vm_compute; reflexivity|].
  exact (proj1 (proj2
    (best_score_running_maximum 1 1 (F64.of_Z (-1)) (F64.of_Z 1)
       (Example.model [[1; 2]; [3]]) (Example.model [[4]]) tt
       ops OpResetEpisode))).
Defined.

(** A soft update of the target actor of the example leaves the local
    actor alone. *)
Lemma soft_update_frame_spec_witness :
  actor <> actor_target /\
  keras.get_weights (nets (snd (soft_update actor actor_target Example.started)) actor)
    = keras.get_weights (nets Example.started actor).
Proof.
  assert (H : actor <> actor_target) by discriminate.
  split; [exact H|].
  exact (proj1 (proj2 (soft_update_frame_spec Example.started actor actor_target)) H).
Defined.

(** ** Further facts of IEEE-754 arithmetic *)

(** Multiplication by one on the right is exact in binary32. *)
Lemma F32_mul_one_r x :
  F32.valid x = true -> F32.mul x (S754_finite false 8388608 (-23)) = x.
Proof.
  destruct x as [s|s| |s m e]; try reflexivity.
  - cbn. now rewrite xorb_false_r.
  - cbn. now rewrite xorb_false_r.
  - intros H. rewrite <- (F32_mul_one_l _ H) at 2.
    unfold F32.mul, SFmul. rewrite xorb_false_r. cbn [xorb].
    now rewrite Pos.mul_comm, Z.add_comm.
Qed.

Lemma SFcompare_antisym x y :
  SFcompare y x = option_map CompOpp (SFcompare x y).
Proof.
  destruct x as [sx|sx| |sx mx ex], y as [sy|sy| |sy my ey]; cbn;
    try reflexivity;
    try (now destruct sx); try (now destruct sy); try (now destruct sx, sy).
  destruct sx, sy; cbn; try reflexivity;
    rewrite (Z.compare_antisym ex ey);
    destruct (ex ?= ey); cbn; try reflexivity;
    repeat (rewrite Pos.compare_cont_antisym; cbn); reflexivity.
Qed.

(** On numbers, [b < a] fails exactly when [a <= b]. *)
Lemma SFltb_false_SFleb x y :
  is_nan x = false -> is_nan y = false -> SFltb y x = false -> SFleb x y = true.
Proof.
  intros Hx Hy. unfold SFltb, SFleb. rewrite (SFcompare_antisym x y).
  destruct x as [sx|sx| |sx mx ex], y as [sy|sy| |sy my ey];
    try discriminate; try destruct sx; try destruct sy; cbn;
    try congruence;
    destruct (ex ?= ey); cbn; try congruence;
    destruct (Pos.compare_cont Eq mx my); cbn; congruence.
Qed.

(** ** Further properties of the methods *)

Section MoreAgentFacts.

Context {World : Type} `{!Collaborators World}.

Implicit Type s : DDPGAgent World.

(** [learn] up to its soft updates, when the batch is built, the TD targets
    are computed and the gradients have the shape of the actions. *)
Lemma learn_unfold s experiences b Q c' w1 g a' w2 :
  batch_arrays (action_size (hyper s)) experiences = Ok b ->
  Q_targets (gamma (hyper s)) (rewards b)
    (critic_predict (nets s critic_target) (next_states b)
       (actor_predict (nets s actor_target) (next_states b)))
    (dones b) = Ok Q ->
  critic_train_on_batch (nets s critic) (states b) (actions b) Q (world s) = (c', w1) ->
  np.reshape_rows (action_size (hyper s))
    (critic_get_action_gradients c' (states b) (actions b)) = Ok g ->
  actor_train_fn (nets s actor) (states b) g w1 = (a', w2) ->
  learn experiences s =
  bind (soft_update critic critic_target) (fun _ => soft_update actor actor_target)
    (set_net actor a'
       (set_world w2
          (log (ActorTrainFn (states b) g)
             (set_net critic c'
                (set_world w1
                   (log (CriticTrainOnBatch (states b) (actions b) Q)
                      (log (Learn experiences) s))))))).
Proof.
  intros Hb HQ Hc Hg Ha. unfold learn.
  unfold bind at 1, modify at 1.
  unfold bind at 1, gets at 1. cbn [hyper log].
  unfold bind at 1, lift at 1. rewrite Hb.
  unfold bind at 1, gets at 1.
  unfold bind at 1, gets at 1.
  unfold bind at 1, gets at 1. cbn [hyper nets log].
  unfold bind at 1, lift at 1. rewrite HQ.
  unfold bind at 1, modify at 1.
  unfold bind at 1, gets at 1.
  unfold bind at 1, call at 1. cbn [nets world log]. rewrite Hc.
  unfold bind at 1, modify at 1.
  unfold bind at 1, gets at 1. rewrite nets_set_net_eq.
  unfold bind at 1, lift at 1.
  change (action_size (hyper (set_net critic c' _))) with (action_size (hyper s)).
  rewrite Hg.
  unfold bind at 1, modify at 1.
  unfold bind at 1, gets at 1.
  unfold bind at 1, call at 1.
  match goal with
  | |- context [actor_train_fn ?m _ _ ?w] =>
      change m with (nets s actor); change w with w1
  end.
  rewrite Ha.
  unfold bind at 1, modify at 1.
  reflexivity.
Qed.

(** *** Soft updates *)

(** X1. A soft update that raises, for the count of the weights or inside
    numpy or Keras, has written nothing: the agent is as it was before
    the call. *)
Theorem soft_update_raises_unchanged s local_model target_model e :
  fst (soft_update local_model target_model s) = Raise e ->
  snd (soft_update local_model target_model s) = s.
Proof.
  rewrite soft_update_unfold.
  destruct (np.array _); [|reflexivity].
  destruct (np.array _); [|reflexivity].
  destruct (Nat.eqb _ _); [|reflexivity].
  destruct (blend _ _ _); [|reflexivity].
  destruct (keras.set_weights _ _); [discriminate|reflexivity].
Qed.

(** X2. A soft update, whether it returns or raises, leaves the number
    and the shapes of the weights of every network as they were. *)
Theorem soft_update_keeps_shapes s local_model target_model (n : net) :
  keras.shapes (keras.get_weights (nets (snd (soft_update local_model target_model s)) n))
  = keras.shapes (keras.get_weights (nets s n)).
Proof.
  rewrite soft_update_unfold.
  destruct (np.array _); [|reflexivity].
  destruct (np.array _); [|reflexivity].
  destruct (Nat.eqb _ _); [|reflexivity].
  destruct (blend _ _ _) as [new_weights|]; [|reflexivity].
  unfold keras.set_weights.
  destruct (decide _) as [Hsh|]; [|reflexivity].
  cbn [snd]. destruct (decide (n = target_model)) as [->|Hn].
  - rewrite nets_set_net_eq. exact Hsh.
  - now rewrite nets_set_net_ne.
Qed.

Lemma soft_update_other_nets s local_model target_model (n : net) :
  n <> target_model ->
  nets (snd (soft_update local_model target_model s)) n = nets s n.
Proof.
  intros Hn. rewrite soft_update_unfold.
  destruct (np.array _); [|reflexivity].
  destruct (np.array _); [|reflexivity].
  destruct (Nat.eqb _ _); [|reflexivity].
  destruct (blend _ _ _); [|reflexivity].
  destruct (keras.set_weights _ _); [|reflexivity].
  cbn [snd]. now apply nets_set_net_ne.
Qed.

(** The two soft updates of [learn] leave the local networks, the world
    and the trace alone. *)
Lemma soft_updates_locals s :
  let s' := snd (bind (soft_update critic critic_target)
                      (fun _ => soft_update actor actor_target) s) in
  nets s' critic = nets s critic /\ nets s' actor = nets s actor /\
  world s' = world s /\ trace s' = trace s.
Proof.
  cbv zeta. unfold bind.
  pose proof (soft_update_other_nets s critic critic_target critic) as Hc1.
  pose proof (soft_update_other_nets s critic critic_target actor) as Ha1.
  pose proof (soft_update_frame world critic critic_target
                (fun _ _ _ => eq_refl) s) as Hw1.
  pose proof (soft_update_frame trace critic critic_target
                (fun _ _ _ => eq_refl) s) as Ht1.
  unfold same_on in Hw1, Ht1.
  destruct (soft_update critic critic_target s) as [[[]|e] s1]; cbn [snd] in *.
  - pose proof (soft_update_other_nets s1 actor actor_target critic) as Hc2.
    pose proof (soft_update_other_nets s1 actor actor_target actor) as Ha2.
    pose proof (soft_update_frame world actor actor_target
                  (fun _ _ _ => eq_refl) s1) as Hw2.
    pose proof (soft_update_frame trace actor actor_target
                  (fun _ _ _ => eq_refl) s1) as Ht2.
    unfold same_on in Hw2, Ht2.
    rewrite Hc2, Ha2, Hw2, Ht2, Hc1, Ha1 by discriminate. now repeat split.
  - rewrite Hc1, Ha1 by discriminate. now repeat split.
Qed.

(** *** [learn] *)

(** X3. [learn] with no experience that is not None (an empty batch, or
    empty slots only) raises ValueError before anything is predicted or
    trained: only the call itself is on the trace, and the networks and
    the world are untouched. *)
Theorem learn_no_experience s experiences :
  not_None experiences = [] ->
  learn experiences s = (Raise ValueError, log (Learn experiences) s).
Proof.
  intros Hnone. unfold learn.
  unfold bind at 1, modify at 1.
  unfold bind at 1, gets at 1.
  unfold bind at 1, lift at 1.
  unfold batch_arrays. rewrite Hnone. reflexivity.
Qed.

(** X4. One call of [learn] that gets as far as training trains the
    critic once and then the actor once, the actor on the action
    gradients of the critic that has just been trained; the local
    networks are the trained ones afterwards, also when a soft update
    raises. *)
Theorem learn_trains_critic_then_actor s experiences b Q c' w1 g a' w2 :
  batch_arrays (action_size (hyper s)) experiences = Ok b ->
  Q_targets (gamma (hyper s)) (rewards b)
    (critic_predict (nets s critic_target) (next_states b)
       (actor_predict (nets s actor_target) (next_states b)))
    (dones b) = Ok Q ->
  critic_train_on_batch (nets s critic) (states b) (actions b) Q (world s) = (c', w1) ->
  np.reshape_rows (action_size (hyper s))
    (critic_get_action_gradients c' (states b) (actions b)) = Ok g ->
  actor_train_fn (nets s actor) (states b) g w1 = (a', w2) ->
  let s' := snd (learn experiences s) in
  trace s' = trace s ++ [Learn experiences;
                         CriticTrainOnBatch (states b) (actions b) Q;
                         ActorTrainFn (states b) g] /\
  nets s' critic = c' /\
  nets s' actor = a' /\
  world s' = w2.
Proof.
  intros Hb HQ Hc Hg Ha s'. subst s'.
  rewrite (learn_unfold _ _ _ _ _ _ _ _ _ Hb HQ Hc Hg Ha).
  match goal with
  | |- context [bind _ _ ?mid] =>
      destruct (soft_updates_locals mid) as (Hcr & Hac & Hw & Ht)
  end.
  rewrite Hcr, Hac, Hw, Ht.
  split; [cbn; now rewrite <- !app_assoc|].
  split; [|split; [apply nets_set_net_eq | reflexivity]].
  rewrite nets_set_net_ne by discriminate. cbn [nets set_world log].
  apply nets_set_net_eq.
Qed.

(** X5. When training leaves the local networks with weights of the
    shapes of their targets that [np.array] accepts, [learn] returns, and
    each target network ends with
    [tau * trained local + (1 - tau) * old target]: the soft updates read
    the local weights that training has left. *)
Theorem learn_updates_targets s experiences b Q c' w1 g a' w2 :
  batch_arrays (action_size (hyper s)) experiences = Ok b ->
  Q_targets (gamma (hyper s)) (rewards b)
    (critic_predict (nets s critic_target) (next_states b)
       (actor_predict (nets s actor_target) (next_states b)))
    (dones b) = Ok Q ->
  critic_train_on_batch (nets s critic) (states b) (actions b) Q (world s) = (c', w1) ->
  np.reshape_rows (action_size (hyper s))
    (critic_get_action_gradients c' (states b) (actions b)) = Ok g ->
  actor_train_fn (nets s actor) (states b) g w1 = (a', w2) ->
  same_structure c' (nets s critic_target) ->
  same_structure a' (nets s actor_target) ->
  let s' := snd (learn experiences s) in
  fst (learn experiences s) = Ok tt /\
  keras.get_weights (nets s' critic_target) =
    soft_weights (tau (hyper s)) (keras.get_weights c')
      (keras.get_weights (nets s critic_target)) /\
  keras.get_weights (nets s' actor_target) =
    soft_weights (tau (hyper s)) (keras.get_weights a')
      (keras.get_weights (nets s actor_target)).
Proof.
  intros Hb HQ Hc Hg Ha (Hshc & Hwc & Hwct & Harrc) (Hsha & Hwa & Hwat & Harra) s'.
  subst s'.
  rewrite (learn_unfold _ _ _ _ _ _ _ _ _ Hb HQ Hc Hg Ha).
  match goal with
  | |- context [bind _ _ ?mid] => set (s1 := mid)
  end.
  assert (Hc1 : nets s1 critic = c').
  { unfold s1. rewrite nets_set_net_ne by discriminate. cbn [nets set_world log].
    apply nets_set_net_eq. }
  assert (Hct1 : nets s1 critic_target = nets s critic_target).
  { unfold s1. rewrite nets_set_net_ne by discriminate. cbn [nets set_world log].
    rewrite nets_set_net_ne by discriminate. reflexivity. }
  assert (Ha1 : nets s1 actor = a') by apply nets_set_net_eq.
  assert (Hat1 : nets s1 actor_target = nets s actor_target).
  { unfold s1. rewrite nets_set_net_ne by discriminate. cbn [nets set_world log].
    rewrite nets_set_net_ne by discriminate. reflexivity. }
  assert (Htau : tau (hyper s1) = tau (hyper s)) by reflexivity.
  set (s2 := set_net critic_target
               {| keras.weights :=
                    soft_weights (tau (hyper s)) (keras.get_weights c')
                      (keras.get_weights (nets s critic_target)) |} s1).
  assert (H1 : soft_update critic critic_target s1 = (Ok tt, s2)).
  { rewrite soft_update_same_shapes by (rewrite ?Hc1, ?Hct1; assumption).
    unfold s2. now rewrite Hc1, Hct1, Htau. }
  assert (Ha2 : nets s2 actor = a')
    by (unfold s2; rewrite nets_set_net_ne by discriminate; assumption).
  assert (Hat2 : nets s2 actor_target = nets s actor_target)
    by (unfold s2; rewrite nets_set_net_ne by discriminate; assumption).
  assert (H2 : soft_update actor actor_target s2 =
               (Ok tt,
                set_net actor_target
                  {| keras.weights :=
                       soft_weights (tau (hyper s)) (keras.get_weights a')
                         (keras.get_weights (nets s actor_target)) |} s2)).
  { rewrite soft_update_same_shapes by (rewrite ?Ha2, ?Hat2; assumption).
    now rewrite Ha2, Hat2. }
  assert (H : bind (soft_update critic critic_target)
                (fun _ => soft_update actor actor_target) s1 =
              (Ok tt,
               set_net actor_target
                 {| keras.weights :=
                      soft_weights (tau (hyper s)) (keras.get_weights a')
                        (keras.get_weights (nets s actor_target)) |} s2)).
  { unfold bind. now rewrite H1, H2. }
  rewrite H. cbn [fst snd]. split; [reflexivity|]. split.
  - rewrite nets_set_net_ne by discriminate. unfold s2.
    now rewrite nets_set_net_eq.
  - now rewrite nets_set_net_eq.
Qed.

Lemma learn_preserves_attributes experiences :
  preserves (World := World)
    (same_on (fun s => (episode s, memory s, noise s, hyper s)))
    (learn experiences).
Proof.
  unfold learn. frame; try reflexivity; now apply soft_update_frame.
Qed.

(** X6. [learn], whether it returns or raises, leaves the episode
    attributes, the replay buffer, the noise process and the constants of
    the agent as they were: it writes networks only. *)
Theorem learn_writes_networks_only s experiences :
  let s' := snd (learn experiences s) in
  episode s' = episode s /\ memory s' = memory s /\
  noise s' = noise s /\ hyper s' = hyper s.
Proof.
  cbv zeta.
  pose proof (learn_preserves_attributes experiences s) as H.
  unfold same_on in H. injection H as -> -> -> ->. now repeat split.
Qed.

(** *** [act] *)

(** X7. [act], whether it returns or raises, leaves the networks, the
    replay buffer, the episode attributes and the constants of the agent
    as they were: it advances the noise process only. *)
Theorem act_writes_noise_only s (states : list float) :
  let s' := snd (act states s) in
  nets s' = nets s /\ memory s' = memory s /\
  episode s' = episode s /\ hyper s' = hyper s.
Proof.
  cbv zeta.
  assert (H : preserves
                (same_on (fun s => (nets s, memory s, episode s, hyper s)))
                (act states)).
  { unfold act. frame; reflexivity. }
  specialize (H s). unfold same_on in H.
  injection H as -> -> -> ->. now repeat split.
Qed.

Lemma reshape_rows_single {A} (ssz k : nat) (row : list A) :
  ssz <> 0%nat -> length row = (k * ssz)%nat ->
  np.reshape_rows ssz [row] = Ok (np.chunks ssz k row).
Proof.
  intros Hssz Hlen. unfold np.reshape_rows. cbn [concat].
  rewrite app_nil_r, Hlen.
  apply Nat.eqb_neq in Hssz as Hssz'. rewrite Hssz'.
  rewrite Nat.Div0.mod_mul, Nat.eqb_refl, Nat.div_mul by exact Hssz.
  reflexivity.
Qed.

(** X8. [act] refuses an input that it cannot cut into states, and one
    for which the actor predicts nothing, before it draws any noise: with
    [state_size] 0, or a number of entries that is no multiple of
    [state_size], it raises ValueError; with an empty input and an empty
    prediction it raises IndexError; the agent is unchanged in each
    case. *)
Theorem act_rejects_bad_input s (states : list float) :
  (state_size (hyper s) = 0%nat \/
   Nat.modulo (length states) (state_size (hyper s)) <> 0%nat ->
   act states s = (Raise ValueError, s)) /\
  (states = [] -> state_size (hyper s) <> 0%nat ->
   actor_predict (nets s actor) [] = [] ->
   act states s = (Raise IndexError, s)).
Proof.
  split.
  - intros H. unfold act.
    unfold bind at 1, gets at 1.
    unfold bind at 1, lift at 1.
    unfold np.reshape_rows. cbn [concat]. rewrite app_nil_r.
    destruct H as [H|H].
    + now rewrite H.
    + destruct (Nat.eqb (state_size (hyper s)) 0); [reflexivity|].
      apply Nat.eqb_neq in H. now rewrite H.
  - intros -> Hssz Hpred. unfold act.
    unfold bind at 1, gets at 1.
    unfold bind at 1, lift at 1.
    rewrite (reshape_rows_single _ 0 []) by (exact Hssz || reflexivity).
    cbn [np.chunks].
    unfold bind at 1, gets at 1. rewrite Hpred. reflexivity.
Qed.

(** X9. Given several states at once (k times [state_size] entries),
    [act] has the actor predict for all k rows and acts on the first
    prediction alone: it returns that action plus one noise sample, and
    the other predictions are dropped. *)
Theorem act_uses_first_state s (states : list float) (k : nat) a rows :
  state_size (hyper s) <> 0%nat ->
  length states = (k * state_size (hyper s))%nat ->
  actor_predict (nets s actor) (np.chunks (state_size (hyper s)) k states)
    = a :: rows ->
  let sampled := randn (OUNoise.size (noise s)) (world s) in
  let n := OUNoise.sample (fst sampled) (noise s) in
  act states s =
  (np.broadcast F64.add (map F64.of_float a) (OUNoise.x n),
   set_noise n (set_world (snd sampled) (log NoiseSample s))).
Proof.
  intros Hssz Hlen Hpred sampled n. unfold act.
  unfold bind at 1, gets at 1.
  unfold bind at 1, lift at 1.
  rewrite (reshape_rows_single _ k _ Hssz Hlen).
  unfold bind at 1, gets at 1. rewrite Hpred.
  unfold bind at 1, lift at 1.
  unfold bind at 1, modify at 1.
  unfold bind at 1, gets at 1.
  unfold bind at 1, call at 1.
  change (world (log NoiseSample s)) with (world s).
  change (noise (log NoiseSample s)) with (noise s).
  fold sampled. destruct sampled as [g w] eqn:Hs.
  unfold bind, modify, gets, lift. reflexivity.
Qed.

(** *** [step] *)

(** [step] without [total_reward] stops at its first statement. *)
Lemma step_without_total_reward s action reward next_state done :
  total_reward (episode s) = None ->
  step action reward next_state done s = (Raise AttributeError, s).
Proof.
  intros H. unfold step. unfold bind at 1, getattr at 1. now rewrite H.
Qed.

(** X10. [step] on an agent that [__init__] has just built, before any
    [reset_episode], raises AttributeError ([total_reward] does not exist
    yet) and changes nothing. *)
Theorem step_before_reset_episode
    state_size action_size action_low action_high actor0 critic0 (w : World)
    action reward next_state done :
  let s := init state_size action_size action_low action_high actor0 critic0 w in
  step action reward next_state done s = (Raise AttributeError, s).
Proof. intros s. now apply step_without_total_reward. Qed.

(** What a [step] in a running episode leaves, whether [learn] was
    called or not and whether it raised or not. *)
Lemma step_effect s action reward next_state done total last :
  total_reward (episode s) = Some total ->
  last_state (episode s) = Some last ->
  let e := {| state := last; action := action; reward := reward;
              next_state := next_state; done := done |} in
  let r := step action reward next_state done s in
  total_reward (episode (snd r)) = Some (F64.add total reward) /\
  num_steps (episode (snd r)) = num_steps (episode s) + 1 /\
  best_score (episode (snd r)) = best_score (episode s) /\
  memory (snd r) = ReplayBuffer.add e (memory s) /\
  noise (snd r) = noise s /\
  hyper (snd r) = hyper s /\
  (fst r = Ok tt -> last_state (episode (snd r)) = Some next_state) /\
  (forall err, fst r = Raise err -> last_state (episode (snd r)) = Some last) /\
  (Nat.ltb (batch_size (hyper s)) (ReplayBuffer.len (ReplayBuffer.add e (memory s)))
     = false ->
   fst r = Ok tt /\ nets (snd r) = nets s /\ world (snd r) = world s).
Proof.
  intros Htotal Hlast e r. subst r.
  rewrite (step_unfold _ _ _ _ _ _ _ Htotal Hlast). fold e. cbv zeta.
  destruct (Nat.ltb _ _).
  - match goal with
    | |- context [learn ?es ?s1] =>
        pose proof (learn_preserves_attributes es s1) as H;
        destruct (learn es s1) as [[[]|err] s2]
    end; unfold same_on in H; cbn [fst snd] in *;
      injection H as Hep Hmem Hno Hhy; cbn in Hep, Hmem, Hno, Hhy; cbn;
      rewrite ?Hep, ?Hmem, ?Hno, ?Hhy; cbn;
      repeat split; try assumption; try discriminate; try reflexivity;
      intros; assumption.
  - cbn. repeat split; try assumption; try discriminate; try reflexivity.
Qed.

(** X11. When [step] raises inside [learn], the step has been counted
    all the same: [total_reward] and [num_steps] have grown, the
    transition is in the replay buffer, and only [last_state] keeps its
    old value. *)
Theorem step_raises_after_counting s action reward next_state done total last err :
  total_reward (episode s) = Some total ->
  last_state (episode s) = Some last ->
  fst (step action reward next_state done s) = Raise err ->
  let s' := snd (step action reward next_state done s) in
  total_reward (episode s') = Some (F64.add total reward) /\
  num_steps (episode s') = num_steps (episode s) + 1 /\
  memory s' =
    ReplayBuffer.add {| state := last; action := action; reward := reward;
                        next_state := next_state; done := done |} (memory s) /\
  last_state (episode s') = Some last.
Proof.
  intros Htotal Hlast Herr s'. subst s'.
  destruct (step_effect s action reward next_state done _ _ Htotal Hlast)
    as (H1 & H2 & _ & H4 & _ & _ & _ & H8 & _).
  repeat split; try assumption. now apply (H8 err).
Qed.

(** X12. A [step] after which the replay buffer holds at most
    [batch_size] transitions returns without learning: the networks, the
    noise process and the world are as they were. *)
Theorem step_without_learning s action reward next_state done total last :
  total_reward (episode s) = Some total ->
  last_state (episode s) = Some last ->
  Nat.ltb (batch_size (hyper s))
    (ReplayBuffer.len
       (ReplayBuffer.add {| state := last; action := action; reward := reward;
                            next_state := next_state; done := done |} (memory s)))
    = false ->
  let s' := snd (step action reward next_state done s) in
  fst (step action reward next_state done s) = Ok tt /\
  nets s' = nets s /\ noise s' = noise s /\ world s' = world s.
Proof.
  intros Htotal Hlast Hfew s'. subst s'.
  destruct (step_effect s action reward next_state done _ _ Htotal Hlast)
    as (_ & _ & _ & _ & Hno & _ & _ & _ & H9).
  destruct (H9 Hfew) as (Hok & Hnets & Hw). now repeat split.
Qed.

(** X13. In a running episode, any number of calls of [step] in a row,
    whether some of them raise inside [learn] or not, adds one to
    [num_steps] per call and adds the rewards to [total_reward] in the
    order of the calls. *)
Theorem steps_accumulate s (l : list StepArgs) total last :
  total_reward (episode s) = Some total ->
  last_state (episode s) = Some last ->
  let s' := run_ops (map step_op l) s in
  num_steps (episode s') = num_steps (episode s) + Z.of_nat (length l) /\
  total_reward (episode s') = Some (add_rewards total l).
Proof.
  intros Htotal Hlast. cbv zeta.
  revert s total last Htotal Hlast.
  induction l as [|x l IH]; intros s total last Htotal Hlast.
  - cbn. split; [lia | exact Htotal].
  - change (run_ops (map step_op (x :: l)) s)
      with (run_ops (map step_op l)
              (snd (step (arg_action x) (arg_reward x) (arg_next_state x)
                      (arg_done x) s))).
    change (add_rewards total (x :: l))
      with (add_rewards (F64.add total (arg_reward x)) l).
    destruct (step_effect s (arg_action x) (arg_reward x) (arg_next_state x)
                (arg_done x) _ _ Htotal Hlast)
      as (H1 & H2 & _ & _ & _ & _ & H7 & H8 & _).
    assert (Hlast' : exists last',
              last_state (episode (snd (step (arg_action x) (arg_reward x)
                                          (arg_next_state x) (arg_done x) s)))
              = Some last').
    { destruct (fst (step (arg_action x) (arg_reward x) (arg_next_state x)
                       (arg_done x) s)) as [[]|err] eqn:Hres.
      - eexists. now apply H7.
      - eexists. now apply (H8 err). }
    destruct Hlast' as [last' Hlast'].
    destruct (IH _ _ _ H1 Hlast') as (Hn & Ht).
    rewrite Hn, Ht, H2. cbn [length]. split; [lia | reflexivity].
Qed.

(** *** The episode attributes over sequences of operations *)

Lemma reset_episode_raises s e :
  fst (get_score s) = Raise e -> reset_episode s = (Raise e, s).
Proof.
  intros H. pose proof (get_score_state s) as Hs.
  unfold reset_episode. unfold bind at 1.
  destruct (get_score s) as [r s1]. cbn in *. now subst.
Qed.

Lemma run_op_episode_consistent o s :
  episode_consistent (episode s) -> episode_consistent (episode (run_op o s)).
Proof.
  intros Hinv. pose proof Hinv as (Hn & Hnone & Hboth).
  destruct o as [st|action reward next_state done|experiences| |]; cbn [run_op].
  - assert (H : preserves (same_on episode) (act st)).
    { unfold act. frame; reflexivity. }
    now rewrite (H s).
  - destruct (total_reward (episode s)) as [total|] eqn:Htotal.
    + destruct (last_state (episode s)) as [last|] eqn:Hlast.
      * destruct (step_effect s action reward next_state done _ _ Htotal Hlast)
          as (H1 & H2 & _ & _ & _ & _ & H7 & H8 & _).
        assert (Hsome : last_state (episode (snd (step action reward next_state
                                                     done s))) <> None).
        { destruct (fst (step action reward next_state done s)) as [[]|err].
          - rewrite H7 by reflexivity. discriminate.
          - rewrite (H8 err) by reflexivity. discriminate. }
        unfold episode_consistent. rewrite H1, H2.
        split; [lia|]. split; [discriminate|].
        split; [discriminate | intros H; now destruct Hsome].
      * destruct Hboth as [_ Hboth]. now specialize (Hboth eq_refl).
    + now rewrite step_without_total_reward by exact Htotal.
  - pose proof (learn_preserves_attributes experiences s) as H.
    unfold same_on in H. injection H as Hep _ _ _. now rewrite Hep.
  - now rewrite get_score_state.
  - destruct (fst (get_score s)) as [score|e] eqn:Hscore.
    + apply get_score_returns in Hscore.
      destruct (task_reset (world s)) as [st w] eqn:Htask.
      rewrite (reset_episode_returns _ _ _ _ Hscore Htask).
      unfold episode_consistent. cbn.
      split; [lia|]. split; [discriminate|]. split; discriminate.
    + now rewrite (reset_episode_raises _ _ Hscore).
Qed.

Lemma run_ops_episode_consistent ops s :
  episode_consistent (episode s) -> episode_consistent (episode (run_ops ops s)).
Proof.
  revert s. induction ops as [|o ops IH]; intros s H; [exact H|].
  cbn. apply IH. now apply run_op_episode_consistent.
Qed.

(** X14. In every state that a sequence of operations reaches from
    [__init__], calls that raised included, [num_steps] is not negative,
    [total_reward] and [last_state] exist together, and [num_steps] is 0
    while they do not exist; so [get_score] never raises AttributeError
    there. *)
Theorem reachable_episode_consistent
    state_size action_size action_low action_high actor0 critic0 (w : World)
    (ops : list op) :
  let s := run_ops ops
             (init state_size action_size action_low action_high actor0 critic0 w) in
  episode_consistent (episode s) /\
  fst (get_score s) <> Raise AttributeError.
Proof.
  intros s.
  assert (H : episode_consistent (episode s)).
  { apply run_ops_episode_consistent. cbn. unfold episode_consistent. cbn.
    now repeat split. }
  split; [exact H|].
  destruct H as (_ & Hnone & _).
  unfold get_score, bind, gets, getattr, ret, lift. cbn.
  destruct (num_steps (episode s) =? 0) eqn:Hz; [discriminate|].
  destruct (total_reward (episode s)) eqn:Ht.
  - cbn. unfold py_truediv. destruct (is_finite _); discriminate.
  - apply Z.eqb_neq in Hz. now specialize (Hnone eq_refl).
Qed.

(** X15. [best_score] is never NaN in a state that a sequence of
    operations reaches from [__init__], whatever the rewards were (NaN
    and infinite rewards included). *)
Theorem reachable_best_score_not_nan
    state_size action_size action_low action_high actor0 critic0 (w : World)
    (ops : list op) :
  is_nan (best_score (episode
            (run_ops ops
               (init state_size action_size action_low action_high
                     actor0 critic0 w)))) = false.
Proof. apply run_ops_not_nan. reflexivity. Qed.

(** X16. After [reset_episode], [best_score] is the score of the episode
    that ended or the previous [best_score], and it is at least both
    (for a score and a previous best that are numbers). *)
Theorem reset_episode_best_score_bounds s score :
  fst (get_score s) = Ok score ->
  is_nan score = false ->
  is_nan (best_score (episode s)) = false ->
  let best' := best_score (episode (snd (reset_episode s))) in
  (best' = score \/ best' = best_score (episode s)) /\
  F64.leb score best' = true /\
  F64.leb (best_score (episode s)) best' = true.
Proof.
  intros Hscore Hs Hb best'. subst best'.
  apply get_score_returns in Hscore.
  destruct (task_reset (world s)) as [st w] eqn:Htask.
  rewrite (reset_episode_returns _ _ _ _ Hscore Htask).
  unfold py_gt. destruct (F64.ltb (best_score (episode s)) score) eqn:Hlt; cbn.
  - split; [now left|]. split; [now apply SFleb_refl | now apply SFltb_SFleb].
  - split; [now right|]. split; [now apply SFltb_false_SFleb | now apply SFleb_refl].
Qed.

(** X17. Right after a [reset_episode] that returned, the score of the
    new episode is minus infinity, and a second [reset_episode] leaves
    [best_score] as it is. *)
Theorem reset_episode_twice s initial_state :
  fst (reset_episode s) = Ok initial_state ->
  let s' := snd (reset_episode s) in
  get_score s' = (Ok ninf, s') /\
  best_score (episode (snd (reset_episode s'))) = best_score (episode s').
Proof.
  intros Hok s'. subst s'.
  destruct (fst (get_score s)) as [score|e] eqn:Hscore.
  - apply get_score_returns in Hscore.
    destruct (task_reset (world s)) as [st w] eqn:Htask.
    rewrite (reset_episode_returns _ _ _ _ Hscore Htask). cbn [snd].
    match goal with
    | |- get_score ?t = _ /\ _ =>
        assert (Hs : get_score t = (Ok ninf, t)) by reflexivity;
        destruct (task_reset (world t)) as [st' w'] eqn:Htask';
        rewrite (reset_episode_returns _ _ _ _ Hs Htask')
    end.
    split; [exact Hs|]. unfold py_gt.
    match goal with
    | |- context [F64.ltb ?b ninf] =>
        replace (F64.ltb b ninf) with false
          by (now destruct b as [| [] | |])
    end.
    reflexivity.
  - rewrite (reset_episode_raises _ _ Hscore) in Hok. discriminate.
Qed.

End MoreAgentFacts.

(** X18. For a transition that is not terminal (done = 0) the TD target
    is [reward + gamma * Q_targets_next] in float32: the mask 1 leaves the
    discounted value of the next state as it is. *)
Theorem Q_targets_non_terminal gamma (rewards Qn : list float) (dones : list Z)
    (i : nat) r q :
  length rewards = length Qn -> length dones = length Qn ->
  rewards !! i = Some r -> Qn !! i = Some q ->
  dones !! i = Some (np.uint8_of_bool false) ->
  F32.valid (F32.mul (F32.of_float gamma) q) = true ->
  exists Q,
    Q_targets gamma rewards Qn dones = Ok Q /\
    Q !! i = Some (F32.add r (F32.mul (F32.of_float gamma) q)).
Proof.
  intros Hr Hd Hir Hiq Hid Hvalid.
  destruct (Q_targets_lookup gamma rewards Qn dones Hr Hd) as (Q & HQ & _ & Hi).
  exists Q. split; [exact HQ|].
  rewrite (Hi i r q _ Hir Hiq Hid).
  change (F32.of_Z (np.uint8_sub 1 (np.uint8_of_bool false)))
    with (S754_finite false 8388608 (-23)).
  now rewrite (F32_mul_one_r _ Hvalid).
Qed.

(** ** Examples of the further properties *)

(** A local weight array of two entries against a target array of three:
    numpy cannot broadcast them, and the agent is as before. *)
Lemma soft_update_raises_unchanged_witness :
  let s := Example.with_actors (tau (hyper Example.fresh))
             (Example.model [[1; 2]]) (Example.model [[1; 2; 3]]) in
  fst (soft_update actor actor_target s) = Raise ValueError /\
  snd (soft_update actor actor_target s) = s.
Proof.
  intros s.
  assert (H : fst (soft_update actor actor_target s) = Raise ValueError)
    by (vm_compute; reflexivity).
  split; [exact H|].
  exact (soft_update_raises_unchanged s actor actor_target ValueError H).
Defined.

(** Two empty slots. *)
Lemma learn_no_experience_witness :
  not_None [None; None] = [] /\
  learn [None; None] Example.started
    = (Raise ValueError, log (Learn [None; None]) Example.started).
Proof.
  assert (H : not_None [None; None] = []) by reflexivity.
  split; [exact H|].
  exact (learn_no_experience Example.started [None; None] H).
Defined.

(** [learn] on the two transitions of the example. *)
Lemma learn_trains_critic_then_actor_witness :
  let s := Example.started in
  let b := Example.batch in
  let Q := [F32.of_Z 2; F32.of_Z 10] in
  let g := [[F32.of_Z 0]; [F32.of_Z 0]] in
  batch_arrays (action_size (hyper s)) Example.experiences = Ok b /\
  Q_targets (gamma (hyper s)) (rewards b)
    (critic_predict (nets s critic_target) (next_states b)
       (actor_predict (nets s actor_target) (next_states b)))
    (dones b) = Ok Q /\
  trace (snd (learn Example.experiences s)) =
    trace s ++ [Learn Example.experiences;
                CriticTrainOnBatch (states b) (actions b) Q;
                ActorTrainFn (states b) g].
Proof.
  intros s b Q g.
  assert (Hb : batch_arrays (action_size (hyper s)) Example.experiences = Ok b)
    by (vm_compute; reflexivity).
  assert (HQ : Q_targets (gamma (hyper s)) (rewards b)
                 (critic_predict (nets s critic_target) (next_states b)
                    (actor_predict (nets s actor_target) (next_states b)))
                 (dones b) = Ok Q)
    by (vm_compute; reflexivity).
  assert (Hc : critic_train_on_batch (nets s critic) (states b) (actions b) Q (world s)
               = (nets s critic, tt))
    by (vm_compute; reflexivity).
  assert (Hg : np.reshape_rows (action_size (hyper s))
                 (critic_get_action_gradients (nets s critic) (states b) (actions b))
               = Ok g)
    by (vm_compute; reflexivity).
  assert (Ha : actor_train_fn (nets s actor) (states b) g tt = (nets s actor, tt))
    by (vm_compute; reflexivity).
  split; [exact Hb|]. split; [exact HQ|].
  exact (proj1 (learn_trains_critic_then_actor s Example.experiences b Q
                  _ _ g _ _ Hb HQ Hc Hg Ha)).
Defined.

(** [learn] in the task whose networks learn.  Training takes the weight
    of the critic from 4.0 to 5.0 and doubles the weights of the actor;
    the targets are blended with the trained weights, tau = 0.1: the
    target critic ends with 4.1, where the weights before training
    (0.1 * 4.0 + 0.9 * 4.0) would have left 4.0. *)
Lemma learn_updates_targets_witness :
  let s := Example.learner in
  let c' := Example.model [[5]] in
  let a' := Example.kernels [[[2; 4]; [6; 8]]; [[10; 12]; [14; 16]]] in
  same_structure c' (nets s critic_target) /\
  same_structure a' (nets s actor_target) /\
  fst (learn Example.experiences s) = Ok tt /\
  nets (snd (learn Example.experiences s)) critic = c' /\
  nets (snd (learn Example.experiences s)) actor = a' /\
  keras.get_weights (nets (snd (learn Example.experiences s)) critic_target) =
    soft_weights (tau (hyper s)) (keras.get_weights c')
      (keras.get_weights (nets s critic_target)) /\
  keras.get_weights (nets (snd (learn Example.experiences s)) actor_target) =
    soft_weights (tau (hyper s)) (keras.get_weights a')
      (keras.get_weights (nets s actor_target)) /\
  soft_weights (tau (hyper s)) (keras.get_weights c')
    (keras.get_weights (nets s critic_target))
    = [Example.array1 [S754_finite false 8598323 (-21)]] /\
  soft_weights (tau (hyper s)) (keras.get_weights (nets s critic))
    (keras.get_weights (nets s critic_target))
    = [Example.array1 [F32.of_Z 4]].
Proof.
  intros s c' a'.
  pose (b := Example.batch).
  pose (Q := [F32.of_Z 2; F32.of_Z 10]).
  pose (g := [[F32.of_Z 0]; [F32.of_Z 0]]).
  assert (Hb : batch_arrays (action_size (hyper s)) Example.experiences = Ok b)
    by (vm_compute; reflexivity).
  assert (HQ : Q_targets (gamma (hyper s)) (rewards b)
                 (critic_predict (World := nat) (nets s critic_target) (next_states b)
                    (actor_predict (World := nat) (nets s actor_target)
                       (next_states b)))
                 (dones b) = Ok Q)
    by (vm_compute; reflexivity).
  assert (Hc : critic_train_on_batch (nets s critic) (states b) (actions b) Q (world s)
               = (c', 1%nat))
    by (vm_compute; reflexivity).
  assert (Hg : np.reshape_rows (action_size (hyper s))
                 (critic_get_action_gradients (World := nat) c' (states b) (actions b))
               = Ok g)
    by (vm_compute; reflexivity).
  assert (Ha : actor_train_fn (nets s actor) (states b) g 1%nat = (a', 2%nat))
    by (vm_compute; reflexivity).
  assert (Hsc : same_structure c' (nets s critic_target)).
  { split; [reflexivity|]. split; [repeat constructor|].
    split; [repeat constructor|]. vm_compute. discriminate. }
  assert (Hsa : same_structure a' (nets s actor_target)).
  { split; [reflexivity|]. split; [repeat constructor|].
    split; [repeat constructor|]. vm_compute. discriminate. }
  destruct (learn_updates_targets s Example.experiences b Q _ _ g _ _
              Hb HQ Hc Hg Ha Hsc Hsa) as (Hok & Hct & Hat).
  split; [exact Hsc|]. split; [exact Hsa|]. split; [exact Hok|].
  split; [vm_compute; reflexivity|]. split; [vm_compute; reflexivity|].
  split; [exact Hct|]. split; [exact Hat|].
  split; vm_compute; reflexivity.
Defined.

(** Three states at once: the action for the first one. *)
Lemma act_uses_first_state_witness :
  let s := Example.started in
  let states := [F64.of_Z 0; F64.of_Z 1; F64.of_Z 2] in
  length states = (3 * state_size (hyper s))%nat /\
  actor_predict (nets s actor) (np.chunks (state_size (hyper s)) 3 states)
    = [F32.of_Z 1] :: [[F32.of_Z 1]; [F32.of_Z 1]] /\
  fst (act states s) = Ok [F64.of_Z 6].
Proof.
  intros s states.
  assert (Hssz : state_size (hyper s) <> 0%nat) by (vm_compute; discriminate).
  assert (Hlen : length states = (3 * state_size (hyper s))%nat)
    by (vm_compute; reflexivity).
  assert (Hp : actor_predict (nets s actor) (np.chunks (state_size (hyper s)) 3 states)
               = [F32.of_Z 1] :: [[F32.of_Z 1]; [F32.of_Z 1]])
    by (vm_compute; reflexivity).
  split; [exact Hlen|]. split; [exact Hp|].
  rewrite (act_uses_first_state s states 3 _ _ Hssz Hlen Hp).
  vm_compute. reflexivity.
Defined.

(** The seventeenth step over a buffer with states of different lengths:
    [learn] raises ValueError, and the step has been counted. *)
Lemma step_raises_after_counting_witness :
  let s := Example.ragged_steps in
  let r := step [F64.of_Z 1] (F64.of_Z 3) [F64.of_Z 0] false s in
  total_reward (episode s) = Some (F64.of_Z 48) /\
  last_state (episode s) = Some [F64.of_Z 0] /\
  fst r = Raise ValueError /\
  total_reward (episode (snd r)) = Some (F64.add (F64.of_Z 48) (F64.of_Z 3)) /\
  num_steps (episode (snd r)) = num_steps (episode s) + 1 /\
  last_state (episode (snd r)) = Some [F64.of_Z 0].
Proof.
  intros s r. subst r.
  assert (Ht : total_reward (episode s) = Some (F64.of_Z 48))
    by (vm_compute; reflexivity).
  assert (Hl : last_state (episode s) = Some [F64.of_Z 0])
    by (vm_compute; reflexivity).
  assert (He : fst (step [F64.of_Z 1] (F64.of_Z 3) [F64.of_Z 0] false s)
               = Raise ValueError)
    by (vm_compute; reflexivity).
  destruct (step_raises_after_counting s [F64.of_Z 1] (F64.of_Z 3) [F64.of_Z 0] false
              _ _ ValueError Ht Hl He) as (H1 & H2 & _ & H4).
  split; [exact Ht|]. split; [exact Hl|]. split; [exact He|].
  split; [exact H1|]. split; [exact H2 | exact H4].
Defined.

(** The first step of the first episode: one transition in the buffer. *)
Lemma step_without_learning_witness :
  let s := Example.started in
  total_reward (episode s) = Some (S754_zero false) /\
  last_state (episode s) = Some [F64.of_Z 0] /\
  fst (step [F64.of_Z 1] (F64.of_Z 3) [F64.of_Z 0] false s) = Ok tt /\
  nets (snd (step [F64.of_Z 1] (F64.of_Z 3) [F64.of_Z 0] false s)) = nets s.
Proof.
  intros s.
  assert (Ht : total_reward (episode s) = Some (S754_zero false))
    by (vm_compute; reflexivity).
  assert (Hl : last_state (episode s) = Some [F64.of_Z 0])
    by (vm_compute; reflexivity).
  assert (Hfew : Nat.ltb (batch_size (hyper s))
                   (ReplayBuffer.len
                      (ReplayBuffer.add
                         {| state := [F64.of_Z 0]; action := [F64.of_Z 1];
                            reward := F64.of_Z 3; next_state := [F64.of_Z 0];
                            done := false |} (memory s))) = false)
    by (vm_compute; reflexivity).
  destruct (step_without_learning s [F64.of_Z 1] (F64.of_Z 3) [F64.of_Z 0] false
              _ _ Ht Hl Hfew) as (Hok & Hnets & _).
  split; [exact Ht|]. split; [exact Hl|]. split; [exact Hok | exact Hnets].
Defined.

(** Rewards 1.0, 2.0 and 3.0 from the start of an episode. *)
Lemma steps_accumulate_witness :
  let s := Example.started in
  let s' := run_ops (map step_op Example.three_steps) s in
  total_reward (episode s) = Some (S754_zero false) /\
  last_state (episode s) = Some [F64.of_Z 0] /\
  num_steps (episode s') = num_steps (episode s) + 3 /\
  total_reward (episode s') = Some (add_rewards (S754_zero false) Example.three_steps) /\
  add_rewards (S754_zero false) Example.three_steps = F64.of_Z 6.
Proof.
  intros s s'. subst s'.
  assert (Ht : total_reward (episode s) = Some (S754_zero false))
    by (vm_compute; reflexivity).
  assert (Hl : last_state (episode s) = Some [F64.of_Z 0])
    by (vm_compute; reflexivity).
  destruct (steps_accumulate s Example.three_steps _ _ Ht Hl) as (Hn & Hsum).
  split; [exact Ht|]. split; [exact Hl|]. split; [exact Hn|].
  split; [exact Hsum|]. vm_compute. reflexivity.
Defined.

(** The end of an episode of ten steps of reward 3.0. *)
Lemma reset_episode_best_score_bounds_witness :
  let s := Example.ten_steps in
  fst (get_score s) = Ok (F64.of_Z 3) /\
  F64.leb (F64.of_Z 3) (best_score (episode (snd (reset_episode s)))) = true.
Proof.
  intros s.
  assert (Hs : fst (get_score s) = Ok (F64.of_Z 3)) by (vm_compute; reflexivity).
  assert (Hn : is_nan (F64.of_Z 3) = false) by reflexivity.
  assert (Hb : is_nan (best_score (episode s)) = false) by (vm_compute; reflexivity).
  split; [exact Hs|].
  exact (proj1 (proj2 (reset_episode_best_score_bounds s _ Hs Hn Hb))).
Defined.

(** Two calls of [reset_episode] after ten steps of reward 3.0. *)
Lemma reset_episode_twice_witness :
  let s := Example.ten_steps in
  fst (reset_episode s) = Ok [F64.of_Z 0] /\
  get_score (snd (reset_episode s)) = (Ok ninf, snd (reset_episode s)).
Proof.
  intros s.
  assert (H : fst (reset_episode s) = Ok [F64.of_Z 0]) by (vm_compute; reflexivity).
  split; [exact H|].
  exact (proj1 (reset_episode_twice s _ H)).
Defined.

(** gamma = 0.99, reward 10, Q_targets_next = 100, done = 0: the target
    is 109. *)
Lemma Q_targets_non_terminal_witness :
  F32.valid (F32.mul (F32.of_float (F64.div (F64.of_Z 99) (F64.of_Z 100)))
                     (F32.of_Z 100)) = true /\
  exists Q,
    Q_targets (F64.div (F64.of_Z 99) (F64.of_Z 100))
      [F32.of_Z 10] [F32.of_Z 100] [np.uint8_of_bool false] = Ok Q /\
    Q !! 0%nat =
      Some (F32.add (F32.of_Z 10)
              (F32.mul (F32.of_float (F64.div (F64.of_Z 99) (F64.of_Z 100)))
                       (F32.of_Z 100))).
Proof.
  assert (Hv : F32.valid (F32.mul (F32.of_float (F64.div (F64.of_Z 99) (F64.of_Z 100)))
                                  (F32.of_Z 100)) = true)
    by (vm_compute; reflexivity).
  split; [exact Hv|].
  exact (Q_targets_non_terminal (F64.div (F64.of_Z 99) (F64.of_Z 100))
           [F32.of_Z 10] [F32.of_Z 100] [np.uint8_of_bool false] 0 _ _
           eq_refl eq_refl eq_refl eq_refl eq_refl Hv).
Defined.
